(** * Interactive Data Plotter (example.py): trace accumulation and rendering

    A shallow embedding of the Streamlit script [example.py].  One execution
    of the script (a "run") is a computation over the session state and the
    page being drawn; what the widgets return in that run is its input.
    The collaborators of the script (pandas, plotly, streamlit) are modelled
    as far as the script uses them. *)

From Stdlib Require Import String Ascii List ZArith Bool Arith Lia.
From Stdlib Require Import Decimal DecimalString.
Import ListNotations.
Local Open Scope string_scope.
Local Open Scope list_scope.

Set Implicit Arguments.

(** ** Python values and exceptions *)

Module Py.

(** A cell of a column after [Series.tolist()]: a Python scalar.  A float
    (NaN, the marker of a missing cell, included) is kept as its IEEE-754
    bit pattern: the script never computes with it. *)
Inductive value : Type :=
| VInt (n : Z)
| VFloat (bits : Z)
| VStr (s : string)
| VBool (b : bool).

(** The exceptions of class [Exception] that the script can meet. *)
Inductive Exception : Type :=
| ParserError (reason : string)     (* any failure of pd.read_csv *)
| KeyError (key : string)           (* df[key] with an unknown key *)
| AttributeError (msg : string)
| IndexError (msg : string).

(** What a raise carries up the stack.  [st.rerun()] raises streamlit's
    RerunException, a BaseException that [except Exception] lets through. *)
Inductive raised : Type :=
| Exc (e : Exception)
| RerunException.

(** [str(n)] for a non-negative int, as an f-string prints it. *)
Definition str_nat (n : nat) : string :=
  NilEmpty.string_of_uint (Nat.to_uint n).

Section Repr.
(** [repr] on [str]; [str(KeyError(k))] is [repr(k)]. *)
Variable repr : string -> string.

Definition str (e : Exception) : string :=
  match e with
  | ParserError reason => reason
  | KeyError key => repr key
  | AttributeError msg => msg
  | IndexError msg => msg
  end.
End Repr.

(** [l[-1]] *)
Definition getitem_last {A} (l : list A) : Exception + A :=
  match nth_error l (length l - 1) with
  | Some a => inr a
  | None => inl (IndexError "list index out of range")
  end.

(** Truth value of a list: [if l:] *)
Definition truthy {A} (l : list A) : bool :=
  match l with
  | [] => false
  | _ :: _ => true
  end.

End Py.

(** ** pandas: the part of DataFrame the script uses *)

Module Pd.
Import Py.

Inductive dtype : Type := int64 | float64 | object | bool_.

Record Series : Type := mkSeries {
  name : string;
  dtype_of : dtype;
  values : list value
}.

(** A frame: the length of its row index and its columns, left to right. *)
Record DataFrame : Type := mkDataFrame {
  nrows : nat;
  series : list Series
}.

(** [df.columns] *)
Definition columns (df : DataFrame) : list string :=
  map name (series df).

(** [df.shape] *)
Definition shape (df : DataFrame) : nat * nat :=
  (nrows df, length (series df)).

(** [df.dtypes.to_dict()] *)
Definition dtypes_to_dict (df : DataFrame) : list (string * dtype) :=
  map (fun s => (name s, dtype_of s)) (series df).

(** [df.head(n)] *)
Definition head (n : nat) (df : DataFrame) : DataFrame :=
  {| nrows := Nat.min n (nrows df);
     series := map (fun s => mkSeries (name s) (dtype_of s) (firstn n (values s)))
                   (series df) |}.

(** What [pd.read_csv] guarantees of the frame it returns: every column
    has one cell per row, and column labels are unique (duplicates in the
    header are renamed). *)
Definition well_formed (df : DataFrame) : Prop :=
  Forall (fun s => length (values s) = nrows df) (series df)
  /\ NoDup (columns df).

(** The result of [df[key]]: a Series when one column bears the label, a
    frame of the columns that bear it when several do. *)
Inductive selection : Type :=
| OneSeries (s : Series)
| SubFrame (d : DataFrame).

(** [df[key]] *)
Definition getitem (df : DataFrame) (key : string) : Exception + selection :=
  match filter (fun s => String.eqb (name s) key) (series df) with
  | [] => inl (KeyError key)
  | [s] => inr (OneSeries s)
  | ss => inr (SubFrame {| nrows := nrows df; series := ss |})
  end.

(** [.tolist()] on the result of [df[key]] *)
Definition tolist (sel : selection) : Exception + list value :=
  match sel with
  | OneSeries s => inr (values s)
  | SubFrame _ => inl (AttributeError "'DataFrame' object has no attribute 'tolist'")
  end.

End Pd.

(** ** plotly.graph_objects: figures as the script builds them *)

Module Go.

(** [go.Scatter(x=.., y=.., mode=.., name=.., marker=dict(size=..),
    line=dict(width=..))] *)
Record Scatter : Type := mkScatter {
  x : list Py.value;
  y : list Py.value;
  mode : string;
  name : string;
  marker_size : Z;
  line_width : Z
}.

(** The layout properties that [fig.update_layout] sets in the script. *)
Record Layout : Type := mkLayout {
  title_text : string;
  title_font_size : Z;
  xaxis_title_text : string;
  xaxis_title_font_size : Z;
  xaxis_tickfont_size : Z;
  yaxis_title_text : string;
  yaxis_title_font_size : Z;
  yaxis_tickfont_size : Z;
  hovermode : string;
  hoverlabel_bgcolor : string;
  hoverlabel_font_size : Z;
  hoverlabel_font_family : string;
  height : Z;
  showlegend : bool;
  legend_font_size : Z;
  font_size : Z
}.

(** A figure: its traces in the order they were added, and the layout
    ([None]: the library's defaults, nothing set yet). *)
Record Figure : Type := mkFigure {
  data : list Scatter;
  layout : option Layout
}.

(** [go.Figure()] *)
Definition Figure_ : Figure := {| data := []; layout := None |}.

(** [fig.add_trace(t)] *)
Definition add_trace (fig : Figure) (t : Scatter) : Figure :=
  {| data := data fig ++ [t]; layout := layout fig |}.

(** [fig.update_layout(..)], called once in the script with all the
    properties of [Layout]. *)
Definition update_layout (fig : Figure) (l : Layout) : Figure :=
  {| data := data fig; layout := Some l |}.

End Go.

(** ** The trace records and the session state *)

(** One entry of [st.session_state.traces]: the dict built at "Add to Plot". *)
Module Trace.
Record t : Type := mk {
  x : list Py.value;
  y : list Py.value;
  name : string;
  x_label : string;
  y_label : string
}.
End Trace.

Module St.

(** [st.session_state]: the script uses the one key ['traces'];
    [None] when the key is not set (a new session). *)
Record session_state : Type := mkSession {
  traces : option (list Trace.t)
}.

(** What a run draws on the page, in the order of the calls.  The
    [st.columns] containers only place elements and are left out. *)
Inductive element : Type :=
| title (body : string)
| write (body : string)
| write_list (body : list string)
| write_dict (body : list (string * Pd.dtype))
| file_uploader (label : string)
| success (body : string)
| subheader (body : string)
| dataframe (df : Pd.DataFrame)
| divider
| selectbox (label : string) (options : list string)
| text_input (label : string) (value : string)
| button (label : string)
| error (body : string)
| plotly_chart (fig : Go.Figure)
| info (body : string).

(** What the widgets return in one run.  An uploaded file is given by
    what [pd.read_csv] makes of it; a text field by what the user typed
    into it, [None] when it was left as pre-filled. *)
Record widgets : Type := mkWidgets {
  uploaded_file : option (Py.Exception + Pd.DataFrame);
  x_column : string;
  y_column : string;
  x_label_typed : option string;
  y_label_typed : option string;
  trace_name_typed : option string;
  add_clicked : bool;
  clear_clicked : bool
}.

(** The state a run works on. *)
Record world : Type := mkWorld {
  session : session_state;
  page : list element
}.

(** A computation of the script: it may raise, and what it did to the
    session and the page before raising stays done. *)
Definition M (A : Type) : Type := world -> (Py.raised + A) * world.

Definition ret {A} (a : A) : M A := fun w => (inr a, w).

Definition bind {A B} (c : M A) (k : A -> M B) : M B :=
  fun w =>
    match c w with
    | (inr a, w') => k a w'
    | (inl r, w') => (inl r, w')
    end.

Definition raise {A} (r : Py.raised) : M A := fun w => (inl r, w).

(** An expression that may raise an [Exception]. *)
Definition lift {A} (v : Py.Exception + A) : M A :=
  match v with
  | inr a => ret a
  | inl e => raise (Py.Exc e)
  end.

(** [try: body  except Exception as e: handler e] *)
Definition try_except (body : M unit) (handler : Py.Exception -> M unit) : M unit :=
  fun w =>
    match body w with
    | (inl (Py.Exc e), w') => handler e w'
    | other => other
    end.

Definition emit (e : element) : M unit :=
  fun w => (inr tt, {| session := session w; page := page w ++ [e] |}).

(** ['traces' in st.session_state] *)
Definition has_traces : M bool :=
  fun w => (inr (match traces (session w) with Some _ => true | None => false end), w).

(** [st.session_state.traces] *)
Definition get_traces : M (list Trace.t) :=
  fun w =>
    match traces (session w) with
    | Some l => (inr l, w)
    | None => (inl (Py.Exc (Py.AttributeError "st.session_state has no attribute 'traces'")), w)
    end.

(** [st.session_state.traces = l] *)
Definition set_traces (l : list Trace.t) : M unit :=
  fun w => (inr tt, {| session := {| traces := Some l |}; page := page w |}).

(** [st.rerun()] *)
Definition rerun : M unit := raise Py.RerunException.

End St.

(** ** The script *)

Module App.
Import St.

Notation "x <- c1 ;; c2" := (bind c1 (fun x => c2))
  (at level 61, c1 at next level, right associativity).
Notation "c1 ;; c2" := (bind c1 (fun _ => c2))
  (at level 61, right associativity).

(** The widget calls: each draws its element and returns what the run's
    [widgets] hold for it. *)
Definition st_file_uploader (label : string) (w : widgets)
  : M (option (Py.Exception + Pd.DataFrame)) :=
  emit (file_uploader label) ;; ret (uploaded_file w).

Definition st_selectbox (label : string) (options : list string) (chosen : string)
  : M string :=
  emit (selectbox label options) ;; ret chosen.

(** The text of a field pre-filled with [value]. *)
Definition text_value (typed : option string) (value : string) : string :=
  match typed with
  | Some s => s
  | None => value
  end.

Definition st_text_input (label : string) (value : string) (typed : option string)
  : M string :=
  emit (text_input label value) ;; ret (text_value typed value).

Definition st_button (label : string) (clicked : bool) : M bool :=
  emit (button label) ;; ret clicked.

(** [pd.read_csv(uploaded_file, sep=',')] *)
Definition read_csv (f : Py.Exception + Pd.DataFrame) : M Pd.DataFrame := lift f.

(** The dict [new_trace] of the "Add to Plot" branch; its entries are
    evaluated in the order written, ['x'] before ['y']. *)
Definition new_trace (df : Pd.DataFrame)
           (x_column y_column trace_name x_label y_label : string)
  : Py.Exception + Trace.t :=
  match Pd.getitem df x_column with
  | inl e => inl e
  | inr selx =>
    match Pd.tolist selx with
    | inl e => inl e
    | inr xs =>
      match Pd.getitem df y_column with
      | inl e => inl e
      | inr sely =>
        match Pd.tolist sely with
        | inl e => inl e
        | inr ys =>
          inr {| Trace.x := xs; Trace.y := ys; Trace.name := trace_name;
                 Trace.x_label := x_label; Trace.y_label := y_label |}
        end
      end
    end
  end.

(** [st.session_state.traces.append(r)] *)
Definition append (r : Trace.t) : M unit :=
  l <- get_traces ;; set_traces (l ++ [r]).

(** [st.session_state.traces = []] *)
Definition clear : M unit := set_traces [].

(** [go.Scatter(x=trace['x'], y=trace['y'], mode='lines+markers',
    name=trace['name'], marker=dict(size=10), line=dict(width=3))] *)
Definition scatter_of (trace : Trace.t) : Go.Scatter :=
  {| Go.x := Trace.x trace; Go.y := Trace.y trace;
     Go.mode := "lines+markers"; Go.name := Trace.name trace;
     Go.marker_size := 10; Go.line_width := 3 |}.

(** The [for trace in st.session_state.traces] loop over [fig]. *)
Definition add_traces (fig : Go.Figure) (l : list Trace.t) : Go.Figure :=
  fold_left (fun f trace => Go.add_trace f (scatter_of trace)) l fig.

(** The argument of [fig.update_layout]. *)
Definition layout_of (last_trace : Trace.t) : Go.Layout :=
  {| Go.title_text := "Your Interactive Plot";
     Go.title_font_size := 28;
     Go.xaxis_title_text := Trace.x_label last_trace;
     Go.xaxis_title_font_size := 22;
     Go.xaxis_tickfont_size := 18;
     Go.yaxis_title_text := Trace.y_label last_trace;
     Go.yaxis_title_font_size := 22;
     Go.yaxis_tickfont_size := 18;
     Go.hovermode := "closest";
     Go.hoverlabel_bgcolor := "white";
     Go.hoverlabel_font_size := 18;
     Go.hoverlabel_font_family := "Arial";
     Go.height := 600;
     Go.showlegend := true;
     Go.legend_font_size := 16;
     Go.font_size := 16 |}.

Section Script.
Variable repr : string -> string.
Variable w : widgets.

(** The body of [try:] (lines 27-92). *)
Definition load_and_build (f : Py.Exception + Pd.DataFrame) : M unit :=
  df <- read_csv f ;;
  emit (success ("✅ File uploaded successfully! Shape: "
                 ++ Py.str_nat (fst (Pd.shape df)) ++ " rows × "
                 ++ Py.str_nat (snd (Pd.shape df)) ++ " columns")) ;;
  emit (subheader "📋 Data Preview") ;;
  emit (dataframe (Pd.head 10 df)) ;;
  emit (subheader "📈 Column Information") ;;
  emit (write "**Available Columns:**") ;;
  emit (write_list (Pd.columns df)) ;;
  emit (write "**Data Types:**") ;;
  emit (write_dict (Pd.dtypes_to_dict df)) ;;
  emit divider ;;
  emit (subheader "🎨 Create Your Plot") ;;
  x_column <- st_selectbox "Select X-axis column:" (Pd.columns df) (x_column w) ;;
  y_column <- st_selectbox "Select Y-axis column:" (Pd.columns df) (y_column w) ;;
  x_label <- st_text_input "X-axis label (optional):" x_column (x_label_typed w) ;;
  y_label <- st_text_input "Y-axis label (optional):" y_column (y_label_typed w) ;;
  trace_name <- st_text_input "Trace name (optional):"
                  (y_column ++ " vs " ++ x_column) (trace_name_typed w) ;;
  add <- st_button "➕ Add to Plot" (add_clicked w) ;;
  (if add then
     r <- lift (new_trace df x_column y_column trace_name x_label y_label) ;;
     append r ;;
     emit (success ("Added trace: " ++ trace_name))
   else ret tt) ;;
  l <- get_traces ;;
  if Py.truthy l then
    clr <- st_button "🗑️ Clear All Traces" (clear_clicked w) ;;
    if clr then clear ;; rerun else ret tt
  else ret tt.

(** Lines 14-95: the session state is set up, then the upload and
    what hangs on it.  [st.set_page_config] draws nothing. *)
Definition upload_section : M unit :=
  has <- has_traces ;;
  (if negb has then set_traces [] else ret tt) ;;
  emit (title "📊 Interactive Data Plotter") ;;
  emit (write "Upload your data, select columns, and create interactive plots!") ;;
  uploaded <- st_file_uploader "Choose a CSV file" w ;;
  match uploaded with
  | Some f =>
      try_except (load_and_build f)
        (fun e => emit (error ("❌ Error reading file: " ++ Py.str repr e)))
  | None => ret tt
  end.

(** The plot section (lines 97-148). *)
Definition render : M unit :=
  l <- get_traces ;;
  if Py.truthy l then
    emit divider ;;
    emit (subheader "📊 Interactive Plot") ;;
    let fig := Go.Figure_ in
    let fig := add_traces fig l in
    last_trace <- lift (Py.getitem_last l) ;;
    let fig := Go.update_layout fig (layout_of last_trace) in
    emit (plotly_chart fig) ;;
    emit (info ("📌 Currently displaying " ++ Py.str_nat (length l) ++ " trace(s)"))
  else ret tt.

(** The whole of example.py. *)
Definition script : M unit :=
  upload_section ;; render.

(** One run of the script in a session: the page starts blank. *)
Definition run_script (ss : session_state) : (Py.raised + unit) * world :=
  script {| session := ss; page := [] |}.

End Script.

(** When a run ends by [st.rerun()] streamlit runs the script again at
    once, in the same session and with the same widget values, buttons
    released.  [interact] is what one user interaction leaves. *)
Definition released (w : widgets) : widgets :=
  {| uploaded_file := uploaded_file w;
     x_column := x_column w; y_column := y_column w;
     x_label_typed := x_label_typed w; y_label_typed := y_label_typed w;
     trace_name_typed := trace_name_typed w;
     add_clicked := false; clear_clicked := false |}.

Definition interact (repr : string -> string) (ss : session_state) (w : widgets)
  : (Py.raised + unit) * world :=
  let r := run_script repr w ss in
  match fst r with
  | inl Py.RerunException => run_script repr (released w) (session (snd r))
  | _ => r
  end.

(** The Trace Store as a sequence: empty in a session that has not set
    the key yet. *)
Definition all_traces (ss : session_state) : list Trace.t :=
  match traces ss with
  | Some l => l
  | None => []
  end.

(** The figure the plot section draws for a store [l] whose last element
    is [t], and the elements of that section. *)
Definition figure_of (l : list Trace.t) (t : Trace.t) : Go.Figure :=
  Go.update_layout (add_traces Go.Figure_ l) (layout_of t).

Definition plot_section (l : list Trace.t) : list element :=
  match Py.getitem_last l with
  | inr t =>
      [divider; subheader "📊 Interactive Plot"; plotly_chart (figure_of l t);
       info ("📌 Currently displaying " ++ Py.str_nat (length l) ++ " trace(s)")]
  | inl _ => []
  end.

(** The elements that only the plot section draws. *)
Definition of_plot (e : element) : bool :=
  match e with
  | plotly_chart _ | info _ => true
  | _ => false
  end.

(** The record that "Add to Plot" builds from the form as [w] has it:
    the columns chosen and the three text fields with their pre-filled
    values. *)
Definition form_trace (df : Pd.DataFrame) (w : widgets) : Py.Exception + Trace.t :=
  new_trace df (x_column w) (y_column w)
    (text_value (trace_name_typed w) (y_column w ++ " vs " ++ x_column w))
    (text_value (x_label_typed w) (x_column w))
    (text_value (y_label_typed w) (y_column w)).

(** An "add" action with a valid selection: a file that loads, both
    selectboxes on columns of the frame, "Add to Plot" pressed and
    "Clear All Traces" not. *)
Definition add_action (df : Pd.DataFrame) (w : widgets) : Prop :=
  uploaded_file w = Some (inr df) /\ Pd.well_formed df /\
  In (x_column w) (Pd.columns df) /\ In (y_column w) (Pd.columns df) /\
  add_clicked w = true /\ clear_clicked w = false.

(** The invariant of a trace record. *)
Definition balanced (r : Trace.t) : Prop :=
  length (Trace.x r) = length (Trace.y r).

(** A session: the interactions of the user in order, from a state. *)
Definition session_after (repr : string -> string)
           (ss : session_state) (ws : list widgets) : session_state :=
  fold_left (fun s w => session (snd (interact repr s w))) ws ss.

(** ** The page and the store of a run, as functions of its inputs *)

(** What every run draws first (lines 17-23). *)
Definition header : list element :=
  [title "📊 Interactive Data Plotter";
   write "Upload your data, select columns, and create interactive plots!";
   file_uploader "Choose a CSV file"].

(** What lines 30-78 draw for a frame that loaded: the summary, the
    preview and the form, down to the "Add to Plot" button. *)
Definition form_elements (df : Pd.DataFrame) (w : widgets) : list element :=
  [success ("✅ File uploaded successfully! Shape: "
            ++ Py.str_nat (fst (Pd.shape df)) ++ " rows × "
            ++ Py.str_nat (snd (Pd.shape df)) ++ " columns");
   subheader "📋 Data Preview";
   dataframe (Pd.head 10 df);
   subheader "📈 Column Information";
   write "**Available Columns:**";
   write_list (Pd.columns df);
   write "**Data Types:**";
   write_dict (Pd.dtypes_to_dict df);
   divider;
   subheader "🎨 Create Your Plot";
   selectbox "Select X-axis column:" (Pd.columns df);
   selectbox "Select Y-axis column:" (Pd.columns df);
   text_input "X-axis label (optional):" (x_column w);
   text_input "Y-axis label (optional):" (y_column w);
   text_input "Trace name (optional):" (y_column w ++ " vs " ++ x_column w);
   button "➕ Add to Plot"].

(** The store that line 89 tests, [None] when the run does not get
    there: no file, a file that does not load, or an add that raises. *)
Definition store_at_clear (w : widgets) (ss : session_state) : option (list Trace.t) :=
  match uploaded_file w with
  | Some (inr df) =>
      if add_clicked w then
        match form_trace df w with
        | inr r => Some (all_traces ss ++ [r])
        | inl _ => None
        end
      else Some (all_traces ss)
  | _ => None
  end.

(** Whether line 91 runs: the button is drawn and pressed. *)
Definition clears (w : widgets) (ss : session_state) : bool :=
  match store_at_clear w ss with
  | Some l => clear_clicked w && Py.truthy l
  | None => false
  end.

(** The store a run leaves. *)
Definition store_after (w : widgets) (ss : session_state) : list Trace.t :=
  if clears w ss then []
  else match store_at_clear w ss with
       | Some l => l
       | None => all_traces ss
       end.

(** What lines 14-95 draw. *)
Definition upload_page (repr : string -> string) (w : widgets) (ss : session_state)
  : list element :=
  header ++
  match uploaded_file w with
  | None => []
  | Some (inl e) => [error ("❌ Error reading file: " ++ Py.str repr e)]
  | Some (inr df) =>
      form_elements df w ++
      (if add_clicked w then
         match form_trace df w with
         | inr r => [success ("Added trace: " ++ Trace.name r)]
         | inl e => [error ("❌ Error reading file: " ++ Py.str repr e)]
         end
       else []) ++
      match store_at_clear w ss with
      | Some l => if Py.truthy l then [button "🗑️ Clear All Traces"] else []
      | None => []
      end
  end.

(** The widgets of the form. *)
Definition of_form (e : element) : bool :=
  match e with
  | selectbox _ _ | text_input _ _ | button _ => true
  | _ => false
  end.

(** Line 89 is reached with a store that is not empty: the file loads
    and either "Add to Plot" is not pressed and the session has traces,
    or it is pressed and the builder returns a record. *)
Definition clear_offered (w : widgets) (ss : session_state) : Prop :=
  exists df,
    uploaded_file w = Some (inr df) /\
    ((add_clicked w = false /\ all_traces ss <> []) \/
     (add_clicked w = true /\ exists r, form_trace df w = inr r)).

End App.

(** ** Sample inputs *)

Module Sample.

(** [repr] of a string that holds no quote, backslash or control
    character. *)
Definition repr_plain (s : string) : string := "'" ++ s ++ "'".

(** time,value with five rows *)
Definition df5 : Pd.DataFrame :=
  {| Pd.nrows := 5;
     Pd.series :=
       [Pd.mkSeries "time" Pd.int64
          [Py.VInt 0; Py.VInt 1; Py.VInt 2; Py.VInt 3; Py.VInt 4];
        Pd.mkSeries "value" Pd.object
          [Py.VStr "a"; Py.VStr "b"; Py.VStr "c"; Py.VStr "d"; Py.VStr "e"]] |}.

(** time,value: a header and no row *)
Definition df0 : Pd.DataFrame :=
  {| Pd.nrows := 0;
     Pd.series := [Pd.mkSeries "time" Pd.object []; Pd.mkSeries "value" Pd.object []] |}.

Definition form (f : option (Py.Exception + Pd.DataFrame)) (xc yc : string)
           (add clr : bool) : St.widgets :=
  {| St.uploaded_file := f; St.x_column := xc; St.y_column := yc;
     St.x_label_typed := None; St.y_label_typed := None; St.trace_name_typed := None;
     St.add_clicked := add; St.clear_clicked := clr |}.

Definition add_value_vs_time : St.widgets := form (Some (inr df5)) "time" "value" true false.
Definition add_time_vs_value : St.widgets := form (Some (inr df5)) "value" "time" true false.
Definition add_empty : St.widgets := form (Some (inr df0)) "time" "value" true false.
Definition add_unknown : St.widgets := form (Some (inr df5)) "time" "speed" true false.
Definition press_clear : St.widgets := form (Some (inr df5)) "time" "time" false true.
Definition bad_upload : St.widgets :=
  form (Some (inl (Py.ParserError "Error tokenizing data"))) "" "" false false.
Definition no_upload : St.widgets := form None "" "" false false.

Definition new_session : St.session_state := {| St.traces := None |}.

Definition one_trace : St.session_state :=
  {| St.traces := Some [Trace.mk [Py.VInt 1] [Py.VInt 2] "b vs a" "a" "b"] |}.

Definition two_traces : St.session_state :=
  {| St.traces := Some [Trace.mk [Py.VInt 1] [Py.VInt 2] "b vs a" "a" "b";
                        Trace.mk [Py.VInt 3] [Py.VInt 4] "d vs c" "seconds" "volts"] |}.



(** The x label typed, the two other fields left alone. *)
Definition add_with_x_label : St.widgets :=
  {| St.uploaded_file := Some (inr df5); St.x_column := "time"; St.y_column := "value";
     St.x_label_typed := Some "seconds"; St.y_label_typed := None;
     St.trace_name_typed := None;
     St.add_clicked := true; St.clear_clicked := false |}.

(** Another selection, no button pressed. *)
Definition change_selection : St.widgets := form (Some (inr df5)) "value" "time" false false.

(** A file that does not load, in a run where both buttons read pressed. *)
Definition bad_upload_pressed : St.widgets :=
  form (Some (inl (Py.ParserError "Error tokenizing data"))) "" "" true true.

End Sample.

(** * Properties *)

Unset Implicit Arguments.

(** ** Lists and frames *)

Lemma getitem_last_app {A} (l : list A) (a : A) :
  Py.getitem_last (l ++ [a]) = inr a.
Proof.
  unfold Py.getitem_last.
  rewrite length_app, Nat.add_sub. simpl.
  rewrite nth_error_app2 by lia. rewrite Nat.sub_diag. reflexivity.
Qed.

Lemma truthy_snoc {A} (l : list A) (a : A) : Py.truthy (l ++ [a]) = true.
Proof. destruct l; reflexivity. Qed.

Lemma truthy_inv {A} (l : list A) :
  Py.truthy l = true -> exists l' a, l = l' ++ [a].
Proof.
  destruct l as [|x l]; [discriminate|]. intros _.
  destruct (exists_last (l := x :: l)) as (l' & a & E); [discriminate|].
  exists l', a. exact E.
Qed.

Lemma filter_name_absent (key : string) (ss : list Pd.Series) :
  ~ In key (map Pd.name ss) ->
  filter (fun s => String.eqb (Pd.name s) key) ss = [].
Proof.
  induction ss as [|s ss IH]; intros H; simpl; [reflexivity|].
  destruct (String.eqb_spec (Pd.name s) key) as [E|_].
  - exfalso. apply H. left. exact E.
  - apply IH. intros K. apply H. right. exact K.
Qed.

Lemma filter_name_unique (s : Pd.Series) (ss : list Pd.Series) :
  NoDup (map Pd.name ss) -> In s ss ->
  filter (fun c => String.eqb (Pd.name c) (Pd.name s)) ss = [s].
Proof.
  induction ss as [|c ss IH]; intros ND HIn; [contradiction|].
  simpl in ND. inversion ND as [|? ? Hc ND']; subst.
  simpl. destruct HIn as [->|HIn].
  - rewrite String.eqb_refl. f_equal. apply filter_name_absent. exact Hc.
  - destruct (String.eqb_spec (Pd.name c) (Pd.name s)) as [E|_].
    + exfalso. apply Hc. rewrite E. apply in_map. exact HIn.
    + apply IH; assumption.
Qed.

Lemma getitem_unknown (df : Pd.DataFrame) (key : string) :
  ~ In key (Pd.columns df) -> Pd.getitem df key = inl (Py.KeyError key).
Proof.
  intros H. unfold Pd.getitem. rewrite filter_name_absent by exact H. reflexivity.
Qed.

Lemma getitem_known (df : Pd.DataFrame) (s : Pd.Series) :
  Pd.well_formed df -> In s (Pd.series df) ->
  Pd.getitem df (Pd.name s) = inr (Pd.OneSeries s).
Proof.
  intros [_ ND] H. unfold Pd.getitem.
  rewrite filter_name_unique by assumption. reflexivity.
Qed.

Lemma column_known (df : Pd.DataFrame) (key : string) :
  In key (Pd.columns df) -> exists s, In s (Pd.series df) /\ Pd.name s = key.
Proof.
  unfold Pd.columns. rewrite in_map_iff. intros (s & E & H). exists s. split; assumption.
Qed.

Lemma new_trace_known (df : Pd.DataFrame) (sx sy : Pd.Series) (n xl yl : string) :
  Pd.well_formed df -> In sx (Pd.series df) -> In sy (Pd.series df) ->
  App.new_trace df (Pd.name sx) (Pd.name sy) n xl yl =
  inr (Trace.mk (Pd.values sx) (Pd.values sy) n xl yl).
Proof.
  intros WF Hx Hy. unfold App.new_trace.
  rewrite (getitem_known df sx WF Hx), (getitem_known df sy WF Hy). reflexivity.
Qed.

Lemma getitem_series_inv (df : Pd.DataFrame) (key : string) (s : Pd.Series) :
  Pd.getitem df key = inr (Pd.OneSeries s) -> In s (Pd.series df) /\ Pd.name s = key.
Proof.
  unfold Pd.getitem.
  destruct (filter (fun c => String.eqb (Pd.name c) key) (Pd.series df))
    as [|a [|b l]] eqn:E; intros H; inversion H; subst.
  assert (I : In s (filter (fun c => String.eqb (Pd.name c) key) (Pd.series df))).
  { rewrite E. left. reflexivity. }
  apply filter_In in I. destruct I as [I N]. split; [exact I|].
  apply String.eqb_eq. exact N.
Qed.

(** Whatever the arguments, a record that the builder returns holds two
    columns of the frame. *)
Lemma new_trace_inv (df : Pd.DataFrame) (xc yc n xl yl : string) (r : Trace.t) :
  App.new_trace df xc yc n xl yl = inr r ->
  exists sx sy,
    In sx (Pd.series df) /\ In sy (Pd.series df) /\
    Pd.name sx = xc /\ Pd.name sy = yc /\
    r = Trace.mk (Pd.values sx) (Pd.values sy) n xl yl.
Proof.
  unfold App.new_trace.
  destruct (Pd.getitem df xc) as [e|[sx|d]] eqn:Gx; simpl; try discriminate.
  destruct (Pd.getitem df yc) as [e|[sy|d]] eqn:Gy; simpl; try discriminate.
  intros H. injection H as <-.
  destruct (getitem_series_inv df xc sx Gx) as [Ix Nx].
  destruct (getitem_series_inv df yc sy Gy) as [Iy Ny].
  exists sx, sy. repeat split; assumption.
Qed.

Lemma new_trace_balanced (df : Pd.DataFrame) (xc yc n xl yl : string) (r : Trace.t) :
  Pd.well_formed df ->
  App.new_trace df xc yc n xl yl = inr r -> App.balanced r.
Proof.
  intros [Rows _] H.
  destruct (new_trace_inv df xc yc n xl yl r H) as (sx & sy & Ix & Iy & _ & _ & ->).
  rewrite Forall_forall in Rows. unfold App.balanced. simpl.
  rewrite (Rows sx Ix), (Rows sy Iy). reflexivity.
Qed.

Lemma add_traces_data (l : list Trace.t) (fig : Go.Figure) :
  Go.data (App.add_traces fig l) = Go.data fig ++ map App.scatter_of l.
Proof.
  unfold App.add_traces. revert fig.
  induction l as [|t l IH]; intros fig; simpl.
  - rewrite app_nil_r. reflexivity.
  - rewrite IH. simpl. rewrite <- app_assoc. reflexivity.
Qed.

(** ** Runs of the script *)

Import St.

(** Unfolds the script and the operations of [M], leaving the frame, the
    strings and the store as they are. *)
Ltac step_script :=
  cbv beta iota zeta delta
    [App.run_script App.script App.upload_section App.load_and_build
     App.st_file_uploader App.st_selectbox App.st_text_input App.st_button
     App.read_csv App.append App.clear rerun try_except lift raise
     has_traces get_traces set_traces emit bind ret App.all_traces
     session page traces fst snd negb andb
     uploaded_file x_column y_column x_label_typed y_label_typed trace_name_typed
     add_clicked clear_clicked].

(** Case analysis on what a run of [upload_section] meets on its way. *)
Ltac upload_cases :=
  step_script;
  repeat match goal with
         | |- context [match App.new_trace ?d ?a ?b ?c ?e ?f with _ => _ end] =>
             destruct (App.new_trace d a b c e f); step_script
         | |- context [Py.truthy (?l ++ [?r])] =>
             rewrite (truthy_snoc l r); step_script
         | |- context [Py.truthy ?l] =>
             destruct (Py.truthy l); step_script
         end.

Section Runs.
Variable repr : string -> string.

Abbreviation upload w ss := (App.upload_section repr w {| session := ss; page := [] |}).

Lemma render_run (wd : world) (l : list Trace.t) :
  traces (session wd) = Some l ->
  App.render wd =
  (inr tt, {| session := session wd; page := page wd ++ App.plot_section l |}).
Proof.
  intros H. destruct wd as [ss pg]. simpl in *.
  unfold App.render, get_traces, bind. simpl. rewrite H.
  destruct (Py.truthy l) eqn:T.
  - destruct (truthy_inv l T) as (l' & a & ->).
    unfold App.plot_section, lift, emit, ret. rewrite getitem_last_app. simpl.
    rewrite <- !app_assoc. reflexivity.
  - destruct l; [|discriminate]. unfold App.plot_section, ret. simpl.
    rewrite app_nil_r. reflexivity.
Qed.

(** The upload section draws neither the chart nor the trace count. *)
Lemma upload_no_plot (w : widgets) (ss : session_state) :
  existsb App.of_plot (page (snd (upload w ss))) = false.
Proof.
  destruct w as [[[e|df]|] xc yc xt yt nt [|] [|]], ss as [[l|]];
    upload_cases; reflexivity.
Qed.

(** It ends normally with the key ['traces'] set, or by [st.rerun()]
    with the store emptied. *)
Lemma upload_outcome (w : widgets) (ss : session_state) :
  (fst (upload w ss) = inr tt /\
   exists l, traces (session (snd (upload w ss))) = Some l)
  \/ (fst (upload w ss) = inl Py.RerunException /\
      traces (session (snd (upload w ss))) = Some []).
Proof.
  destruct w as [[[e|df]|] xc yc xt yt nt [|] [|]], ss as [[l|]];
    upload_cases;
    solve [ left; split; [reflexivity | eexists; reflexivity]
          | right; split; reflexivity ].
Qed.

Lemma upload_no_file (w : widgets) (ss : session_state) :
  uploaded_file w = None ->
  fst (upload w ss) = inr tt /\
  traces (session (snd (upload w ss))) = Some (App.all_traces ss).
Proof.
  destruct w as [up xc yc xt yt nt add clr], ss as [[l|]];
    step_script; intros ->; upload_cases; split; reflexivity.
Qed.

Lemma upload_parse_failure (w : widgets) (ss : session_state) (e : Py.Exception) :
  uploaded_file w = Some (inl e) ->
  fst (upload w ss) = inr tt /\
  traces (session (snd (upload w ss))) = Some (App.all_traces ss) /\
  In (error ("❌ Error reading file: " ++ Py.str repr e)) (page (snd (upload w ss))).
Proof.
  destruct w as [up xc yc xt yt nt add clr], ss as [[l|]];
    step_script; intros ->; upload_cases;
    (split; [reflexivity | split; [reflexivity | simpl; tauto]]).
Qed.

Lemma upload_add_ok (w : widgets) (ss : session_state)
      (df : Pd.DataFrame) (r : Trace.t) :
  uploaded_file w = Some (inr df) -> add_clicked w = true ->
  App.form_trace df w = inr r ->
  fst (upload w ss) = (if clear_clicked w then inl Py.RerunException else inr tt) /\
  traces (session (snd (upload w ss))) =
    Some (if clear_clicked w then [] else App.all_traces ss ++ [r]).
Proof.
  destruct w as [up xc yc xt yt nt add [|]], ss as [[l|]];
    unfold App.form_trace; step_script; intros -> -> H; step_script; rewrite H; upload_cases;
    split; reflexivity.
Qed.

Lemma upload_add_rejected (w : widgets) (ss : session_state)
      (df : Pd.DataFrame) (e : Py.Exception) :
  uploaded_file w = Some (inr df) -> add_clicked w = true ->
  App.form_trace df w = inl e ->
  fst (upload w ss) = inr tt /\
  traces (session (snd (upload w ss))) = Some (App.all_traces ss) /\
  In (error ("❌ Error reading file: " ++ Py.str repr e)) (page (snd (upload w ss))).
Proof.
  destruct w as [up xc yc xt yt nt add clr], ss as [[l|]];
    unfold App.form_trace; step_script; intros -> -> H; step_script; rewrite H; upload_cases;
    (split; [reflexivity | split; [reflexivity | simpl; tauto]]).
Qed.

Lemma upload_idle (w : widgets) (ss : session_state) (df : Pd.DataFrame) :
  uploaded_file w = Some (inr df) -> add_clicked w = false ->
  fst (upload w ss) =
    (if clear_clicked w && Py.truthy (App.all_traces ss)
     then inl Py.RerunException else inr tt) /\
  traces (session (snd (upload w ss))) =
    Some (if clear_clicked w && Py.truthy (App.all_traces ss)
          then [] else App.all_traces ss).
Proof.
  destruct w as [up xc yc xt yt nt add [|]], ss as [[l|]];
    step_script; intros -> ->; upload_cases; split; reflexivity.
Qed.

(** *** The whole run *)

Abbreviation run w ss := (App.run_script repr w ss).

Lemma run_status (w : widgets) (ss : session_state) :
  fst (run w ss) = fst (upload w ss).
Proof.
  unfold App.run_script, App.script, bind.
  destruct (upload_outcome w ss) as [[F [l T]]|[F T]];
    destruct (upload w ss) as [[r|[]] wd]; simpl in *; try discriminate.
  - rewrite (render_run wd l T). reflexivity.
  - reflexivity.
Qed.

Lemma run_session (w : widgets) (ss : session_state) :
  session (snd (run w ss)) = session (snd (upload w ss)).
Proof.
  unfold App.run_script, App.script, bind.
  destruct (upload_outcome w ss) as [[F [l T]]|[F T]];
    destruct (upload w ss) as [[r|[]] wd]; simpl in *; try discriminate.
  - rewrite (render_run wd l T). reflexivity.
  - reflexivity.
Qed.

Lemma run_page (w : widgets) (ss : session_state) :
  page (snd (run w ss)) =
  page (snd (upload w ss)) ++
  match fst (upload w ss) with
  | inr _ => App.plot_section (App.all_traces (session (snd (upload w ss))))
  | inl _ => []
  end.
Proof.
  unfold App.run_script, App.script, bind.
  destruct (upload_outcome w ss) as [[F [l T]]|[F T]];
    destruct (upload w ss) as [[r|[]] wd]; simpl in *; try discriminate.
  - rewrite (render_run wd l T). unfold App.all_traces. rewrite T. reflexivity.
  - rewrite app_nil_r. reflexivity.
Qed.

(** A run never ends on an [Exception]: it finishes or asks for a rerun. *)
Lemma run_never_crashes (w : widgets) (ss : session_state) (e : Py.Exception) :
  fst (run w ss) <> inl (Py.Exc e).
Proof.
  rewrite run_status.
  destruct (upload_outcome w ss) as [[F _]|[F _]]; rewrite F; discriminate.
Qed.

(** After a run the key is set; a run that asks for a rerun leaves the
    store empty. *)
Lemma run_rerun_empty (w : widgets) (ss : session_state) :
  fst (run w ss) <> inr tt -> App.all_traces (session (snd (run w ss))) = [].
Proof.
  rewrite run_status, run_session. unfold App.all_traces.
  destruct (upload_outcome w ss) as [[F _]|[F T]]; rewrite F.
  - intros H. contradiction H. reflexivity.
  - intros _. rewrite T. reflexivity.
Qed.

Lemma plot_section_snoc (l : list Trace.t) (t : Trace.t) :
  App.plot_section (l ++ [t]) =
  [divider; subheader "📊 Interactive Plot";
   plotly_chart (App.figure_of (l ++ [t]) t);
   info ("📌 Currently displaying " ++ Py.str_nat (length (l ++ [t])) ++ " trace(s)")].
Proof. unfold App.plot_section. rewrite getitem_last_app. reflexivity. Qed.

Lemma not_in_upload (w : widgets) (ss : session_state) (e : element) :
  App.of_plot e = true -> ~ In e (page (snd (upload w ss))).
Proof.
  intros P H.
  assert (X : existsb App.of_plot (page (snd (upload w ss))) = true).
  { apply existsb_exists. exists e. split; assumption. }
  rewrite upload_no_plot in X. discriminate.
Qed.

(** The plot elements of a page, in terms of the store the run leaves. *)
Lemma run_plot_elements (w : widgets) (ss : session_state) (e : element) :
  App.of_plot e = true ->
  (In e (page (snd (run w ss))) <->
   In e (App.plot_section (App.all_traces (session (snd (run w ss)))))).
Proof.
  intros P. rewrite run_page, run_session. split.
  - intros H. apply in_app_or in H. destruct H as [H|H].
    + exfalso. exact (not_in_upload w ss e P H).
    + destruct (fst (upload w ss)); [contradiction | exact H].
  - intros H. apply in_or_app. right.
    destruct (upload_outcome w ss) as [[F _]|[F T]]; rewrite F.
    + exact H.
    + unfold App.all_traces in H. rewrite T in H. exact H.
Qed.

Lemma run_add_action (w : widgets) (ss : session_state) (df : Pd.DataFrame) :
  App.add_action df w ->
  exists sx sy,
    In sx (Pd.series df) /\ In sy (Pd.series df) /\
    Pd.name sx = x_column w /\ Pd.name sy = y_column w /\
    let r := Trace.mk (Pd.values sx) (Pd.values sy)
               (App.text_value (trace_name_typed w) (y_column w ++ " vs " ++ x_column w))
               (App.text_value (x_label_typed w) (x_column w))
               (App.text_value (y_label_typed w) (y_column w)) in
    App.form_trace df w = inr r /\
    fst (run w ss) = inr tt /\
    App.all_traces (session (snd (run w ss))) = App.all_traces ss ++ [r].
Proof.
  intros (U & WF & Hx & Hy & A & C).
  destruct (column_known df _ Hx) as (sx & Ix & Ex).
  destruct (column_known df _ Hy) as (sy & Iy & Ey).
  exists sx, sy. do 4 (split; [assumption|]). intros r.
  assert (B : App.form_trace df w = inr r).
  { unfold App.form_trace. rewrite <- Ex, <- Ey at 1 2.
    rewrite (new_trace_known df sx sy _ _ _ WF Ix Iy). rewrite Ex, Ey. reflexivity. }
  split; [exact B|].
  destruct (upload_add_ok w ss df r U A B) as [F T]. rewrite C in F, T.
  rewrite run_status, run_session. split; [exact F|].
  unfold App.all_traces at 1. rewrite T. reflexivity.
Qed.

(** ** The trace builder *)

(** C1. Every record that the builder makes from a frame that loaded has as
    many x values as y values, [len(x) == len(y)]; and for two columns of
    that frame "Add to Plot" does make one and appends it to the store. *)
Theorem trace_record_lengths_agree (df : Pd.DataFrame) :
  Pd.well_formed df ->
  (forall (x_col y_col trace_name x_lab y_lab : string) (r : Trace.t),
      App.new_trace df x_col y_col trace_name x_lab y_lab = inr r ->
      length (Trace.x r) = length (Trace.y r)) /\
  (forall (w : widgets) (ss : session_state),
      App.add_action df w ->
      exists r,
        App.form_trace df w = inr r /\
        App.all_traces (session (snd (run w ss))) = App.all_traces ss ++ [r] /\
        length (Trace.x r) = length (Trace.y r)).
Proof.
  intros WF. split.
  - intros xc yc n xl yl r H. exact (new_trace_balanced df xc yc n xl yl r WF H).
  - intros w ss H.
    destruct (run_add_action w ss df H) as (sx & sy & _ & _ & _ & _ & B & _ & T).
    eexists. split; [exact B|]. split; [exact T|].
    exact (new_trace_balanced df _ _ _ _ _ _ WF B).
Qed.

(** C4. With the three text fields left as pre-filled, the record added has
    the x column's name as [x_label], the y column's name as [y_label] and
    "<y column> vs <x column>" as [name]. *)
Theorem default_labels
        (w : widgets) (ss : session_state) (df : Pd.DataFrame) :
  App.add_action df w ->
  x_label_typed w = None -> y_label_typed w = None -> trace_name_typed w = None ->
  exists r,
    App.all_traces (session (snd (run w ss))) = App.all_traces ss ++ [r] /\
    Trace.x_label r = x_column w /\
    Trace.y_label r = y_column w /\
    Trace.name r = (y_column w ++ " vs " ++ x_column w)%string.
Proof.
  intros H Nx Ny Nn.
  destruct (run_add_action w ss df H) as (sx & sy & _ & _ & _ & _ & _ & _ & T).
  eexists. split; [exact T|]. simpl. rewrite Nx, Ny, Nn. repeat split.
Qed.

(** C5. The record added holds the whole of the chosen x column as [x] and
    the whole of the chosen y column as [y]: the very cells of the frame,
    in row order. *)
Theorem trace_holds_whole_columns
        (w : widgets) (ss : session_state) (df : Pd.DataFrame) (sx sy : Pd.Series) :
  App.add_action df w ->
  In sx (Pd.series df) -> Pd.name sx = x_column w ->
  In sy (Pd.series df) -> Pd.name sy = y_column w ->
  exists r,
    App.form_trace df w = inr r /\
    App.all_traces (session (snd (run w ss))) = App.all_traces ss ++ [r] /\
    Trace.x r = Pd.values sx /\
    Trace.y r = Pd.values sy.
Proof.
  intros H Ix Ex Iy Ey.
  destruct (run_add_action w ss df H) as (_ & _ & _ & _ & _ & _ & _ & F & _).
  assert (B : App.form_trace df w =
              inr (Trace.mk (Pd.values sx) (Pd.values sy)
                     (App.text_value (trace_name_typed w) (y_column w ++ " vs " ++ x_column w))
                     (App.text_value (x_label_typed w) (x_column w))
                     (App.text_value (y_label_typed w) (y_column w)))).
  { destruct H as (_ & WF & _). unfold App.form_trace. rewrite <- Ex, <- Ey at 1 2.
    rewrite (new_trace_known df sx sy _ _ _ WF Ix Iy). rewrite Ex, Ey. reflexivity. }
  eexists. split; [exact B|].
  destruct H as (U & _ & _ & _ & A & C).
  destruct (upload_add_ok w ss df _ U A B) as [_ T]. rewrite C in T.
  rewrite run_session. unfold App.all_traces at 1. rewrite T.
  repeat split.
Qed.

(** C8. The builder turns down a column name that the frame does not have:
    it raises [KeyError] on that name, the error of an unknown column, and
    builds no record; the run that pressed "Add to Plot" leaves the store
    as it was. *)
Theorem unknown_column_rejected
        (df : Pd.DataFrame) (x_col y_col trace_name x_lab y_lab : string) :
  Pd.well_formed df ->
  ~ In x_col (Pd.columns df) \/ ~ In y_col (Pd.columns df) ->
  (exists key,
      App.new_trace df x_col y_col trace_name x_lab y_lab = inl (Py.KeyError key) /\
      (key = x_col \/ key = y_col) /\ ~ In key (Pd.columns df)) /\
  (forall (w : widgets) (ss : session_state),
      uploaded_file w = Some (inr df) -> add_clicked w = true ->
      x_column w = x_col -> y_column w = y_col ->
      fst (run w ss) = inr tt /\
      App.all_traces (session (snd (run w ss))) = App.all_traces ss /\
      exists key,
        ~ In key (Pd.columns df) /\
        In (error ("❌ Error reading file: " ++ Py.str repr (Py.KeyError key))%string)
           (page (snd (run w ss)))).
Proof.
  intros WF Unknown.
  assert (K : forall n xl yl, exists key,
             App.new_trace df x_col y_col n xl yl = inl (Py.KeyError key) /\
             (key = x_col \/ key = y_col) /\ ~ In key (Pd.columns df)).
  { intros n xl yl. unfold App.new_trace.
    destruct (in_dec string_dec x_col (Pd.columns df)) as [Hx|Hx].
    - destruct Unknown as [N|Hy]; [contradiction|].
      destruct (column_known df _ Hx) as (sx & Ix & <-).
      rewrite (getitem_known df sx WF Ix). simpl.
      rewrite (getitem_unknown df y_col Hy).
      exists y_col. auto.
    - rewrite (getitem_unknown df x_col Hx). exists x_col. auto. }
  split; [apply K|].
  intros w ss U A <- <-.
  destruct (K (App.text_value (trace_name_typed w) (y_column w ++ " vs " ++ x_column w))
              (App.text_value (x_label_typed w) (x_column w))
              (App.text_value (y_label_typed w) (y_column w))) as (key & B & _ & N).
  destruct (upload_add_rejected w ss df _ U A B) as (F & T & E).
  rewrite run_status, run_session, run_page. split; [exact F|]. split.
  - unfold App.all_traces at 1. rewrite T. reflexivity.
  - exists key. split; [exact N|]. apply in_or_app. left. exact E.
Qed.

(** C10. A frame with a header and no row: "Add to Plot" still appends a
    record, with empty [x] and [y], and the chart of that run has it as
    its last trace, like any other. *)
Theorem empty_table_adds_empty_trace
        (w : widgets) (ss : session_state) (df : Pd.DataFrame) :
  App.add_action df w -> Pd.nrows df = 0 ->
  exists r,
    App.all_traces (session (snd (run w ss))) = App.all_traces ss ++ [r] /\
    Trace.x r = [] /\ Trace.y r = [] /\
    exists fig,
      In (plotly_chart fig) (page (snd (run w ss))) /\
      Go.data fig = map App.scatter_of (App.all_traces ss) ++ [App.scatter_of r] /\
      Go.x (App.scatter_of r) = [] /\ Go.y (App.scatter_of r) = [].
Proof.
  intros H Z.
  destruct (run_add_action w ss df H) as (sx & sy & Ix & Iy & _ & _ & _ & _ & T).
  destruct H as (_ & [Rows _] & _). rewrite Forall_forall in Rows.
  assert (Vx : Pd.values sx = []).
  { apply length_zero_iff_nil. rewrite (Rows sx Ix). exact Z. }
  assert (Vy : Pd.values sy = []).
  { apply length_zero_iff_nil. rewrite (Rows sy Iy). exact Z. }
  eexists. split; [exact T|]. simpl. do 2 (split; [assumption|]).
  eexists. split.
  - apply run_plot_elements; [reflexivity|]. rewrite T, plot_section_snoc.
    simpl. right. right. left. reflexivity.
  - unfold App.figure_of. simpl. rewrite add_traces_data. simpl.
    rewrite map_app. simpl. rewrite Vx, Vy. auto.
Qed.

(** ** The plot *)

Lemma plot_section_nil : App.plot_section [] = [].
Proof. reflexivity. Qed.

Lemma nonempty_snoc {A} (l : list A) : l <> [] -> exists l' a, l = l' ++ [a].
Proof.
  intros H. destruct (exists_last H) as (l' & a & E). exists l', a. exact E.
Qed.

(** C2. Whenever a run leaves a store that is not empty, the page holds
    one chart, and the titles of its x and y axes are the [x_label] and
    [y_label] of the last trace of the store, whatever the earlier traces
    carry. *)
Theorem axis_titles_of_last_trace
        (w : widgets) (ss : session_state) (l : list Trace.t) (t : Trace.t) :
  App.all_traces (session (snd (run w ss))) = l ++ [t] ->
  exists fig lay,
    In (plotly_chart fig) (page (snd (run w ss))) /\
    (forall fig', In (plotly_chart fig') (page (snd (run w ss))) -> fig' = fig) /\
    Go.layout fig = Some lay /\
    Go.xaxis_title_text lay = Trace.x_label t /\
    Go.yaxis_title_text lay = Trace.y_label t.
Proof.
  intros T.
  exists (App.figure_of (l ++ [t]) t), (App.layout_of t).
  split; [|split; [|repeat split]].
  - apply run_plot_elements; [reflexivity|]. rewrite T, plot_section_snoc.
    simpl. auto.
  - intros fig' H. apply run_plot_elements in H; [|reflexivity].
    rewrite T, plot_section_snoc in H. simpl in H.
    destruct H as [H|[H|[H|[H|[]]]]]; try discriminate.
    injection H as <-. reflexivity.
Qed.

(** C9. The plot section is drawn exactly when the store is not empty when
    the run reaches it: the chart and the trace count are on the page if
    and only if the run leaves a store that is not empty; and a run
    without an uploaded file in a session that has traces draws the
    chart. *)
Theorem plot_drawn_iff_store_nonempty (w : widgets) (ss : session_state) :
  ((exists fig, In (plotly_chart fig) (page (snd (run w ss)))) <->
   App.all_traces (session (snd (run w ss))) <> []) /\
  ((exists body, In (info body) (page (snd (run w ss)))) <->
   App.all_traces (session (snd (run w ss))) <> []) /\
  (uploaded_file w = None -> App.all_traces ss <> [] ->
   fst (run w ss) = inr tt /\
   exists fig, In (plotly_chart fig) (page (snd (run w ss)))).
Proof.
  assert (Drawn : App.all_traces (session (snd (run w ss))) <> [] ->
                  (exists fig, In (plotly_chart fig) (page (snd (run w ss)))) /\
                  (exists body, In (info body) (page (snd (run w ss))))).
  { intros NE. destruct (nonempty_snoc _ NE) as (l & t & T). split.
    - eexists. apply run_plot_elements; [reflexivity|].
      rewrite T, plot_section_snoc. simpl. right. right. left. reflexivity.
    - eexists. apply run_plot_elements; [reflexivity|].
      rewrite T, plot_section_snoc. simpl. right. right. right. left. reflexivity. }
  split; [|split].
  - split; [|intros NE; apply Drawn; exact NE].
    intros [fig H] E. apply run_plot_elements in H; [|reflexivity].
    rewrite E in H. exact H.
  - split; [|intros NE; apply Drawn; exact NE].
    intros [body H] E. apply run_plot_elements in H; [|reflexivity].
    rewrite E in H. exact H.
  - intros U NE. destruct (upload_no_file w ss U) as [F T].
    split; [rewrite run_status; exact F|].
    apply Drawn. rewrite run_session. unfold App.all_traces at 1. rewrite T. exact NE.
Qed.

(** ** Errors *)

(** C6. When [pd.read_csv] fails on the uploaded file the run finishes
    without raising, the page shows "Error reading file:" followed by the
    text of the failure, and the store holds what it held before. *)
Theorem parse_failure_reported
        (w : widgets) (ss : session_state) (e : Py.Exception) :
  uploaded_file w = Some (inl e) ->
  fst (run w ss) = inr tt /\
  In (error ("❌ Error reading file: " ++ Py.str repr e)%string) (page (snd (run w ss))) /\
  App.all_traces (session (snd (run w ss))) = App.all_traces ss.
Proof.
  intros U. destruct (upload_parse_failure w ss e U) as (F & T & E).
  rewrite run_status, run_session, run_page.
  split; [exact F|]. split.
  - apply in_or_app. left. exact E.
  - unfold App.all_traces at 1. rewrite T. reflexivity.
Qed.

(** ** The store over a session *)

Lemma interact_finished (w : widgets) (ss : session_state) :
  fst (run w ss) = inr tt -> App.interact repr ss w = run w ss.
Proof. intros F. unfold App.interact. rewrite F. reflexivity. Qed.

Lemma interact_rerun (w : widgets) (ss : session_state) :
  fst (run w ss) = inl Py.RerunException ->
  App.interact repr ss w = run (App.released w) (session (snd (run w ss))).
Proof. intros F. unfold App.interact. rewrite F. reflexivity. Qed.

Lemma session_after_adds (ws : list widgets) (ss : session_state) :
  Forall (fun w => exists df, App.add_action df w) ws ->
  exists rs,
    App.all_traces (App.session_after repr ss ws) = App.all_traces ss ++ rs /\
    Forall2 (fun w r => exists df,
                 uploaded_file w = Some (inr df) /\ App.form_trace df w = inr r) ws rs.
Proof.
  revert ss. induction ws as [|w ws IH]; intros ss H.
  - exists []. simpl. rewrite app_nil_r. split; [reflexivity | constructor].
  - inversion H as [|? ? [df Hw] Hws]; subst.
    destruct (run_add_action w ss df Hw) as (sx & sy & _ & _ & _ & _ & B & F & T).
    destruct (IH (session (snd (run w ss))) Hws) as (rs & E & Frs).
    eexists (_ :: rs). split.
    + unfold App.session_after in *. simpl. rewrite (interact_finished w ss F).
      rewrite E, T, <- app_assoc. reflexivity.
    + constructor; [|exact Frs]. exists df. destruct Hw as (U & _). split; [exact U | exact B].
Qed.

(** What a run can do to the store: empty it, leave it, or append the
    record built from the form. *)
Lemma run_store_cases (w : widgets) (ss : session_state) :
  App.all_traces (session (snd (run w ss))) = []
  \/ App.all_traces (session (snd (run w ss))) = App.all_traces ss
  \/ exists df r,
       uploaded_file w = Some (inr df) /\ App.form_trace df w = inr r /\
       App.all_traces (session (snd (run w ss))) = App.all_traces ss ++ [r].
Proof.
  rewrite run_session. unfold App.all_traces at 1 2 4.
  destruct (uploaded_file w) as [[e|df]|] eqn:U.
  - destruct (upload_parse_failure w ss e U) as (_ & T & _). rewrite T. auto.
  - destruct (add_clicked w) eqn:A.
    + destruct (App.form_trace df w) as [e|r] eqn:B.
      * destruct (upload_add_rejected w ss df e U A B) as (_ & T & _). rewrite T. auto.
      * destruct (upload_add_ok w ss df r U A B) as (_ & T). rewrite T.
        destruct (clear_clicked w); [auto|].
        right. right. exists df, r. auto.
    + destruct (upload_idle w ss df U A) as (_ & T). rewrite T.
      destruct (clear_clicked w && Py.truthy (App.all_traces ss)); auto.
  - destruct (upload_no_file w ss U) as (_ & T). rewrite T. auto.
Qed.

Lemma run_keeps_balanced (w : widgets) (ss : session_state) :
  (forall df, uploaded_file w = Some (inr df) -> Pd.well_formed df) ->
  Forall App.balanced (App.all_traces ss) ->
  Forall App.balanced (App.all_traces (session (snd (run w ss)))).
Proof.
  intros WF H.
  destruct (run_store_cases w ss) as [E|[E|(df & r & U & B & E)]]; rewrite E.
  - constructor.
  - exact H.
  - apply Forall_app. split; [exact H|]. constructor; [|constructor].
    exact (new_trace_balanced df _ _ _ _ _ r (WF df U) B).
Qed.

Lemma interact_keeps_balanced (w : widgets) (ss : session_state) :
  (forall df, uploaded_file w = Some (inr df) -> Pd.well_formed df) ->
  Forall App.balanced (App.all_traces ss) ->
  Forall App.balanced (App.all_traces (session (snd (App.interact repr ss w)))).
Proof.
  intros WF H. unfold App.interact.
  destruct (fst (run w ss)) as [[e|]|u] eqn:F.
  - apply run_keeps_balanced; assumption.
  - apply run_keeps_balanced; [exact WF|].
    apply run_keeps_balanced; assumption.
  - apply run_keeps_balanced; assumption.
Qed.

(** The invariant of the store: over a session whose uploads all load as
    frames of [pd.read_csv], every record in the store has as many x as y
    values, after any interactions, clears and failed uploads included. *)
Lemma session_keeps_balanced (ws : list widgets) (ss : session_state) :
  (forall w df, In w ws -> uploaded_file w = Some (inr df) -> Pd.well_formed df) ->
  Forall App.balanced (App.all_traces ss) ->
  Forall App.balanced (App.all_traces (App.session_after repr ss ws)).
Proof.
  revert ss. induction ws as [|w ws IH]; intros ss WF H; [exact H|].
  unfold App.session_after. simpl. apply IH.
  - intros w' df I. apply WF. right. exact I.
  - apply interact_keeps_balanced; [|exact H].
    intros df. apply WF. left. reflexivity.
Qed.

(** C3. From an empty store, N "add" actions with valid selections and no
    clear leave N records in the store, the i-th of them the record built
    from the form of the i-th action: nothing is refused, merged or
    dropped, whatever N. *)
Theorem adds_accumulate_in_order (ss : session_state) (ws : list widgets) :
  App.all_traces ss = [] ->
  Forall (fun w => exists df, App.add_action df w) ws ->
  length (App.all_traces (App.session_after repr ss ws)) = length ws /\
  Forall2 (fun w r => exists df,
               uploaded_file w = Some (inr df) /\ App.form_trace df w = inr r)
          ws (App.all_traces (App.session_after repr ss ws)).
Proof.
  intros E H. destruct (session_after_adds ws ss H) as (rs & T & F).
  rewrite E in T. simpl in T. rewrite T. split; [|exact F].
  symmetry. exact (Forall2_length F).
Qed.

(** C7. "Clear All Traces" leaves a store of length 0 whatever it held: the
    assignment itself cannot fail, and the interaction that presses the
    button ends, after the rerun it asks for, with an empty store. *)
Theorem clear_empties_store
        (w : widgets) (ss : session_state) (df : Pd.DataFrame) :
  uploaded_file w = Some (inr df) -> add_clicked w = false -> clear_clicked w = true ->
  (forall wd : world,
      fst (App.clear wd) = inr tt /\ traces (session (snd (App.clear wd))) = Some []) /\
  length (App.all_traces (session (snd (run w ss)))) = 0 /\
  fst (App.interact repr ss w) = inr tt /\
  length (App.all_traces (session (snd (App.interact repr ss w)))) = 0.
Proof.
  intros U A C. split; [intros wd; split; reflexivity|].
  destruct (upload_idle w ss df U A) as [F T]. rewrite C in F, T. simpl in F, T.
  assert (R : App.all_traces (session (snd (run w ss))) = []).
  { rewrite run_session. unfold App.all_traces at 1. rewrite T.
    unfold App.all_traces. destruct (traces ss) as [[|t l]|]; reflexivity. }
  split; [rewrite R; reflexivity|].
  destruct (Py.truthy (App.all_traces ss)) eqn:Y.
  - rewrite interact_rerun by (rewrite run_status; exact F).
    set (s1 := session (snd (run w ss))) in *.
    destruct (upload_idle (App.released w) s1 df U eq_refl) as [F' T'].
    simpl in F', T'.
    rewrite (run_status (App.released w) s1), (run_session (App.released w) s1).
    split; [exact F'|].
    unfold App.all_traces at 1. rewrite T', R. reflexivity.
  - rewrite interact_finished by (rewrite run_status; exact F).
    split; [rewrite run_status; exact F | rewrite R; reflexivity].
Qed.

(** ** The run as a function of its inputs *)

Lemma form_trace_name (df : Pd.DataFrame) (w : widgets) (r : Trace.t) :
  App.form_trace df w = inr r ->
  Trace.name r = App.text_value (trace_name_typed w) (y_column w ++ " vs " ++ x_column w)
  /\ Trace.x_label r = App.text_value (x_label_typed w) (x_column w)
  /\ Trace.y_label r = App.text_value (y_label_typed w) (y_column w).
Proof.
  intros H. unfold App.form_trace in H.
  destruct (new_trace_inv _ _ _ _ _ _ _ H) as (sx & sy & _ & _ & _ & _ & ->).
  repeat split.
Qed.

Lemma upload_status (w : widgets) (ss : session_state) :
  fst (upload w ss) = if App.clears w ss then inl Py.RerunException else inr tt.
Proof.
  unfold App.clears, App.store_at_clear.
  destruct (uploaded_file w) as [[e|df]|] eqn:U.
  - apply (upload_parse_failure w ss e U).
  - destruct (add_clicked w) eqn:A.
    + destruct (App.form_trace df w) as [e|r] eqn:B.
      * apply (upload_add_rejected w ss df e U A B).
      * destruct (upload_add_ok w ss df r U A B) as [F _]. rewrite F.
        rewrite truthy_snoc, andb_true_r. reflexivity.
    + apply (upload_idle w ss df U A).
  - apply (upload_no_file w ss U).
Qed.

Lemma upload_store (w : widgets) (ss : session_state) :
  traces (session (snd (upload w ss))) = Some (App.store_after w ss).
Proof.
  unfold App.store_after, App.clears, App.store_at_clear.
  destruct (uploaded_file w) as [[e|df]|] eqn:U.
  - apply (upload_parse_failure w ss e U).
  - destruct (add_clicked w) eqn:A.
    + destruct (App.form_trace df w) as [e|r] eqn:B.
      * apply (upload_add_rejected w ss df e U A B).
      * destruct (upload_add_ok w ss df r U A B) as [_ T]. rewrite T.
        rewrite truthy_snoc, andb_true_r. reflexivity.
    + destruct (upload_idle w ss df U A) as [_ T]. rewrite T. reflexivity.
  - apply (upload_no_file w ss U).
Qed.

Lemma upload_section_page (w : widgets) (ss : session_state) :
  page (snd (upload w ss)) = App.upload_page repr w ss.
Proof.
  unfold App.upload_page, App.store_at_clear, App.form_trace, App.header,
    App.form_elements.
  destruct w as [[[e|df]|] xc yc xt yt nt [|] clr], ss as [[l|]];
    step_script; try reflexivity.
  all: try (destruct (App.new_trace df xc yc
                        (App.text_value nt (yc ++ " vs " ++ xc))
                        (App.text_value xt xc) (App.text_value yt yc))
              as [e|r] eqn:B; step_script;
            [reflexivity|];
            destruct (form_trace_name df
                        (mkWidgets (Some (inr df)) xc yc xt yt nt true clr)
                        r B) as (-> & _)).
  all: repeat match goal with
         | |- context [Py.truthy (?l ++ [?r])] =>
             rewrite (truthy_snoc l r); step_script
         | |- context [Py.truthy ?l] =>
             destruct (Py.truthy l); step_script
         end.
  all: destruct clr; reflexivity.
Qed.

Lemma run_status_exact (w : widgets) (ss : session_state) :
  fst (run w ss) = if App.clears w ss then inl Py.RerunException else inr tt.
Proof. rewrite run_status. apply upload_status. Qed.

Lemma run_store_exact (w : widgets) (ss : session_state) :
  App.all_traces (session (snd (run w ss))) = App.store_after w ss.
Proof.
  rewrite run_session. unfold App.all_traces at 1. rewrite upload_store. reflexivity.
Qed.

Lemma run_page_exact (w : widgets) (ss : session_state) :
  page (snd (run w ss)) =
  App.upload_page repr w ss ++
  (if App.clears w ss then [] else App.plot_section (App.store_after w ss)).
Proof.
  rewrite run_page, upload_section_page, upload_status.
  unfold App.all_traces. rewrite upload_store.
  destruct (App.clears w ss); reflexivity.
Qed.

Lemma truthy_nonempty {A} (l : list A) : Py.truthy l = true <-> l <> [].
Proof. destruct l; simpl; split; congruence. Qed.

Lemma clear_offered_iff (w : widgets) (ss : session_state) :
  App.clear_offered w ss <->
  exists l, App.store_at_clear w ss = Some l /\ Py.truthy l = true.
Proof.
  unfold App.clear_offered, App.store_at_clear. split.
  - intros (df & -> & [[-> NE]|[-> [r ->]]]).
    + exists (App.all_traces ss). split; [reflexivity|]. apply truthy_nonempty. exact NE.
    + exists (App.all_traces ss ++ [r]). split; [reflexivity | apply truthy_snoc].
  - intros (l & H & T).
    destruct (uploaded_file w) as [[e|df]|]; try discriminate.
    exists df. split; [reflexivity|].
    destruct (add_clicked w).
    + right. split; [reflexivity|].
      destruct (App.form_trace df w) as [e|r]; [discriminate|]. exists r. reflexivity.
    + left. split; [reflexivity|]. injection H as <-. apply truthy_nonempty. exact T.
Qed.

Lemma clears_iff (w : widgets) (ss : session_state) :
  App.clears w ss = true <-> clear_clicked w = true /\ App.clear_offered w ss.
Proof.
  rewrite clear_offered_iff. unfold App.clears.
  destruct (App.store_at_clear w ss) as [l|].
  - rewrite andb_true_iff. split.
    + intros [C T]. split; [exact C|]. exists l. auto.
    + intros [C (l' & E & T)]. injection E as <-. auto.
  - split; [discriminate|]. intros [_ (l & E & _)]. discriminate.
Qed.

Lemma clears_store_empty (w : widgets) (ss : session_state) :
  App.clears w ss = true -> App.store_after w ss = [].
Proof. unfold App.store_after. intros ->. reflexivity. Qed.

Lemma released_never_clears (w : widgets) (ss : session_state) :
  App.clears (App.released w) ss = false.
Proof.
  unfold App.clears. destruct (App.store_at_clear (App.released w) ss); reflexivity.
Qed.

Lemma released_keeps_store (w : widgets) (ss : session_state) :
  App.store_after (App.released w) ss = App.all_traces ss.
Proof.
  unfold App.store_after. rewrite released_never_clears.
  unfold App.store_at_clear. simpl.
  destruct (uploaded_file w) as [[e|df]|]; reflexivity.
Qed.

(** The rerun that a clear asks for finishes and leaves the store as the
    first run left it. *)
Lemma interact_status (w : widgets) (ss : session_state) :
  fst (App.interact repr ss w) = inr tt.
Proof.
  unfold App.interact. rewrite run_status_exact.
  destruct (App.clears w ss) eqn:C.
  - rewrite run_status_exact, released_never_clears. reflexivity.
  - rewrite run_status_exact, C. reflexivity.
Qed.

Lemma interact_store (w : widgets) (ss : session_state) :
  App.all_traces (session (snd (App.interact repr ss w))) = App.store_after w ss.
Proof.
  unfold App.interact. rewrite run_status_exact.
  destruct (App.clears w ss) eqn:C.
  - rewrite run_store_exact, released_keeps_store. apply run_store_exact.
  - apply run_store_exact.
Qed.

Lemma session_after_app (ss : session_state) (ws1 ws2 : list widgets) :
  App.session_after repr ss (ws1 ++ ws2) =
  App.session_after repr (App.session_after repr ss ws1) ws2.
Proof. unfold App.session_after. apply fold_left_app. Qed.

(** ** Further properties of the script *)

(** X1. No run ends on an exception: whatever the widgets return and
    whatever the session holds, the script finishes or stops at
    [st.rerun()], and the key ['traces'] is set when it ends. *)
Theorem run_raises_no_exception (w : widgets) (ss : session_state) :
  (fst (run w ss) = inr tt \/ fst (run w ss) = inl Py.RerunException) /\
  (forall e, fst (run w ss) <> inl (Py.Exc e)) /\
  exists l, traces (session (snd (run w ss))) = Some l.
Proof.
  rewrite run_status_exact, run_session, upload_store.
  split; [|split].
  - destruct (App.clears w ss); auto.
  - intros e. destruct (App.clears w ss); discriminate.
  - eexists. reflexivity.
Qed.

(** X2. A run stops at [st.rerun()] exactly when "Clear All Traces" is
    pressed in a run that draws it; such a run leaves the store empty and
    draws neither the chart nor the trace count. *)
Theorem rerun_iff_clear_pressed (w : widgets) (ss : session_state) :
  (fst (run w ss) = inl Py.RerunException <->
   clear_clicked w = true /\ App.clear_offered w ss) /\
  (fst (run w ss) = inl Py.RerunException ->
   App.all_traces (session (snd (run w ss))) = [] /\
   existsb App.of_plot (page (snd (run w ss))) = false).
Proof.
  rewrite run_status_exact. split.
  - rewrite <- clears_iff. destruct (App.clears w ss); split; congruence.
  - destruct (App.clears w ss) eqn:C; [intros _ | discriminate].
    split.
    + rewrite run_store_exact. apply clears_store_empty. exact C.
    + rewrite run_page, upload_status, C, app_nil_r. apply upload_no_plot.
Qed.

(** X3. One rerun is enough: an interaction always ends with a run that
    finishes, and the rerun changes nothing in the store that the first
    run left. *)
Theorem interaction_finishes (w : widgets) (ss : session_state) :
  fst (App.interact repr ss w) = inr tt /\
  App.all_traces (session (snd (App.interact repr ss w))) =
  App.all_traces (session (snd (run w ss))).
Proof.
  split; [apply interact_status|].
  rewrite interact_store, run_store_exact. reflexivity.
Qed.

(** X4. Without "Clear All Traces" a run keeps every record of the store
    in place: the store it leaves is the old one with at most one record
    appended, and with none when "Add to Plot" is not pressed. *)
Theorem store_grows_without_clear (w : widgets) (ss : session_state) :
  clear_clicked w = false ->
  exists rs,
    App.all_traces (session (snd (run w ss))) = App.all_traces ss ++ rs /\
    length rs <= 1 /\
    (add_clicked w = false -> rs = []).
Proof.
  intros C. rewrite run_store_exact.
  unfold App.store_after, App.clears, App.store_at_clear. rewrite C.
  destruct (uploaded_file w) as [[e|df]|].
  1, 3: exists []; rewrite app_nil_r; simpl; auto.
  destruct (add_clicked w).
  - destruct (App.form_trace df w) as [e|r].
    + exists []. rewrite app_nil_r. simpl. auto.
    + exists [r]. simpl. split; [reflexivity|]. split; [lia | discriminate].
  - exists []. rewrite app_nil_r. simpl. auto.
Qed.

(** *** What is on the page *)

(** Splits a membership in an explicit list into its cases and drops
    those that compare different elements. *)
Ltac in_list H :=
  cbn [app In] in H;
  repeat (destruct H as [H|H]; [try discriminate H|]);
  try contradiction H.

Lemma plot_section_elements (l : list Trace.t) (e : element) :
  In e (App.plot_section l) ->
  e = divider \/ e = subheader "📊 Interactive Plot" \/
  (exists t, Py.getitem_last l = inr t /\ e = plotly_chart (App.figure_of l t)) \/
  e = info ("📌 Currently displaying " ++ Py.str_nat (length l) ++ " trace(s)")%string.
Proof.
  unfold App.plot_section.
  destruct (Py.getitem_last l) as [x|t] eqn:G; [contradiction|].
  intros H. cbn [In] in H.
  destruct H as [H|[H|[H|[H|[]]]]]; subst e; auto.
  right. right. left. exists t. auto.
Qed.

Lemma plot_part_elements (w : widgets) (ss : session_state) (e : element) :
  In e (if App.clears w ss then [] else App.plot_section (App.store_after w ss)) ->
  e = divider \/ e = subheader "📊 Interactive Plot" \/ App.of_plot e = true.
Proof.
  destruct (App.clears w ss); [contradiction|]. intros H.
  destruct (plot_section_elements _ _ H) as [->|[->|[(t & _ & ->)| ->]]]; auto.
Qed.



(** X7. Without a frame there is no form: when no file is uploaded, or
    the upload does not load, the run finishes, draws no selectbox, text
    field or button, and leaves the store as it was, pressed buttons or
    not. *)
Theorem no_frame_no_form (w : widgets) (ss : session_state) :
  uploaded_file w = None \/ (exists e, uploaded_file w = Some (inl e)) ->
  fst (run w ss) = inr tt /\
  App.all_traces (session (snd (run w ss))) = App.all_traces ss /\
  existsb App.of_form (page (snd (run w ss))) = false.
Proof.
  intros U.
  assert (S : App.store_at_clear w ss = None).
  { unfold App.store_at_clear. destruct U as [->|[e ->]]; reflexivity. }
  assert (C : App.clears w ss = false).
  { unfold App.clears. rewrite S. reflexivity. }
  rewrite run_status_exact, run_store_exact, run_page_exact.
  unfold App.store_after. rewrite C, S.
  split; [reflexivity|]. split; [reflexivity|].
  rewrite existsb_app. apply orb_false_iff. split.
  - unfold App.upload_page. destruct U as [->|[e ->]]; reflexivity.
  - unfold App.plot_section. destruct (Py.getitem_last (App.all_traces ss)); reflexivity.
Qed.

(** X8. The confirmation "Added trace: <name>" is on the page exactly
    when the run appended a record of that name: not when "Add to Plot"
    is not pressed, and not when the builder raised. *)
Theorem added_message_iff_appended (w : widgets) (ss : session_state) (s : string) :
  In (success ("Added trace: " ++ s)%string) (page (snd (run w ss))) <->
  exists df r,
    uploaded_file w = Some (inr df) /\ add_clicked w = true /\
    App.form_trace df w = inr r /\ Trace.name r = s.
Proof.
  rewrite run_page_exact, in_app_iff. split.
  - intros [H|H].
    + unfold App.upload_page, App.header, App.form_elements in H.
      destruct (uploaded_file w) as [[e|df]|]; [in_list H | | in_list H].
      exists df.
      destruct (add_clicked w);
        [destruct (App.form_trace df w) as [e|r]|];
        (destruct (App.store_at_clear w ss) as [l|];
         [destruct (Py.truthy l)|]; cbn [app In String.append] in H;
         repeat (destruct H as [H|H]; [try discriminate H|]);
         try contradiction H).
      all: exists r; injection H as H; auto.
    + destruct (plot_part_elements w ss _ H) as [E|[E|E]]; discriminate.
  - intros (df & r & U & A & B & <-). left.
    unfold App.upload_page. rewrite U, A, B.
    rewrite !in_app_iff. right. right. left. left. reflexivity.
Qed.

(** *** The plot and the store *)

Lemma chart_in_plot_section (l : list Trace.t) (fig : Go.Figure) :
  In (plotly_chart fig) (App.plot_section l) ->
  Go.data fig = map App.scatter_of l.
Proof.
  intros H.
  destruct (plot_section_elements _ _ H) as [E|[E|[(t & _ & E)|E]]];
    try discriminate.
  injection E as ->. unfold App.figure_of. simpl. apply add_traces_data.
Qed.

Lemma info_in_plot_section (l : list Trace.t) (body : string) :
  In (info body) (App.plot_section l) ->
  body = ("📌 Currently displaying " ++ Py.str_nat (length l) ++ " trace(s)")%string.
Proof.
  intros H.
  destruct (plot_section_elements _ _ H) as [E|[E|[(t & _ & E)|E]]];
    try discriminate.
  injection E as ->. reflexivity.
Qed.

(** X9. The plot section shows the store as the run leaves it: a chart on
    the page has one scatter for each stored trace, in the order of the
    store and with that trace's x, y and name, and the count message
    gives the length of the store. *)
Theorem plot_reflects_store (w : widgets) (ss : session_state) :
  (forall fig,
      In (plotly_chart fig) (page (snd (run w ss))) ->
      Go.data fig = map App.scatter_of (App.all_traces (session (snd (run w ss))))) /\
  (forall body,
      In (info body) (page (snd (run w ss))) ->
      body = ("📌 Currently displaying "
              ++ Py.str_nat (length (App.all_traces (session (snd (run w ss)))))
              ++ " trace(s)")%string).
Proof.
  split.
  - intros fig H. apply run_plot_elements in H; [|reflexivity].
    apply chart_in_plot_section. exact H.
  - intros body H. apply run_plot_elements in H; [|reflexivity].
    apply info_in_plot_section. exact H.
Qed.

(** X10. Over a session whose uploads are frames as [pd.read_csv] returns
    them, the store only ever holds records with as many x as y values,
    clears, failed uploads and rejected adds included, and so does every
    scatter of every chart drawn. *)
Theorem every_scatter_balanced
        (ws : list widgets) (ss : session_state) (w : widgets) :
  (forall w' df, In w' (ws ++ [w]) -> uploaded_file w' = Some (inr df) ->
                 Pd.well_formed df) ->
  Forall App.balanced (App.all_traces ss) ->
  Forall App.balanced
    (App.all_traces (session (snd (run w (App.session_after repr ss ws))))) /\
  (forall fig,
      In (plotly_chart fig) (page (snd (run w (App.session_after repr ss ws)))) ->
      Forall (fun sc => length (Go.x sc) = length (Go.y sc)) (Go.data fig)).
Proof.
  intros WF H.
  assert (B : Forall App.balanced
                (App.all_traces (session (snd (run w (App.session_after repr ss ws)))))).
  { apply run_keeps_balanced.
    - intros df. apply WF. apply in_or_app. right. left. reflexivity.
    - apply session_keeps_balanced; [|exact H].
      intros w' df I. apply WF. apply in_or_app. left. exact I. }
  split; [exact B|].
  intros fig I. apply run_plot_elements in I; [|reflexivity].
  rewrite (chart_in_plot_section _ _ I).
  apply Forall_map. exact B.
Qed.

(** X11. Each text field that the user typed into is taken as typed, each
    one left alone falls back to its default, one field independently of
    the others. *)
Theorem typed_labels_are_kept
        (w : widgets) (ss : session_state) (df : Pd.DataFrame) :
  App.add_action df w ->
  exists r,
    App.all_traces (session (snd (run w ss))) = App.all_traces ss ++ [r] /\
    (forall s, x_label_typed w = Some s -> Trace.x_label r = s) /\
    (forall s, y_label_typed w = Some s -> Trace.y_label r = s) /\
    (forall s, trace_name_typed w = Some s -> Trace.name r = s) /\
    (x_label_typed w = None -> Trace.x_label r = x_column w) /\
    (y_label_typed w = None -> Trace.y_label r = y_column w) /\
    (trace_name_typed w = None ->
     Trace.name r = (y_column w ++ " vs " ++ x_column w)%string).
Proof.
  intros H.
  destruct (run_add_action w ss df H) as (sx & sy & _ & _ & _ & _ & _ & _ & T).
  eexists. split; [exact T|]. simpl.
  repeat split; intros; match goal with E : _ = _ |- _ => rewrite E end; reflexivity.
Qed.

(** X12. On a frame as [pd.read_csv] returns it the builder returns a
    record exactly when both names are columns of the frame; an unknown x
    column is the one reported, whatever the y column. *)
Theorem builder_succeeds_iff_columns_known
        (df : Pd.DataFrame) (x_col y_col trace_name x_lab y_lab : string) :
  Pd.well_formed df ->
  ((exists r, App.new_trace df x_col y_col trace_name x_lab y_lab = inr r) <->
   In x_col (Pd.columns df) /\ In y_col (Pd.columns df)) /\
  (~ In x_col (Pd.columns df) ->
   App.new_trace df x_col y_col trace_name x_lab y_lab = inl (Py.KeyError x_col)).
Proof.
  intros WF. split; [split|].
  - intros [r H].
    destruct (new_trace_inv _ _ _ _ _ _ _ H) as (sx & sy & Ix & Iy & <- & <- & _).
    split; apply in_map; assumption.
  - intros [Hx Hy].
    destruct (column_known df _ Hx) as (sx & Ix & <-).
    destruct (column_known df _ Hy) as (sy & Iy & <-).
    eexists. apply new_trace_known; assumption.
  - intros N. unfold App.new_trace. rewrite (getitem_unknown df x_col N). reflexivity.
Qed.

(** *** The preview *)





(** *** Sessions *)

Lemma store_after_length (w : widgets) (ss : session_state) :
  length (App.store_after w ss) <=
  length (App.all_traces ss) + (if add_clicked w then 1 else 0).
Proof.
  unfold App.store_after. destruct (App.clears w ss); [simpl; lia|].
  unfold App.store_at_clear.
  destruct (uploaded_file w) as [[e|df]|]; [lia| |lia].
  destruct (add_clicked w); [|lia].
  destruct (App.form_trace df w) as [e|r]; [lia|].
  rewrite length_app. simpl. lia.
Qed.

(** X14. A session cannot hold more records than were asked for: after any
    interactions the store is at most as long as it was at the start plus
    the number of interactions that pressed "Add to Plot". *)
Theorem store_length_bounded_by_adds (ws : list widgets) (ss : session_state) :
  length (App.all_traces (App.session_after repr ss ws)) <=
  length (App.all_traces ss) + length (filter add_clicked ws).
Proof.
  revert ss. induction ws as [|w ws IH]; intros ss; [simpl; lia|].
  unfold App.session_after in *. simpl.
  specialize (IH (session (snd (App.interact repr ss w)))).
  rewrite interact_store in IH.
  pose proof (store_after_length w ss) as L.
  destruct (add_clicked w); simpl; lia.
Qed.

Lemma clear_action_store (w : widgets) (ss : session_state) (df : Pd.DataFrame) :
  uploaded_file w = Some (inr df) -> add_clicked w = false -> clear_clicked w = true ->
  App.store_after w ss = [].
Proof.
  intros U A C. unfold App.store_after, App.clears, App.store_at_clear.
  rewrite U, A, C. simpl.
  destruct (App.all_traces ss); reflexivity.
Qed.

Lemma upload_page_no_plot (w : widgets) (ss : session_state) :
  existsb App.of_plot (App.upload_page repr w ss) = false.
Proof. rewrite <- upload_section_page. apply upload_no_plot. Qed.

Lemma run_page_no_plot (w : widgets) (ss : session_state) :
  App.store_after w ss = [] ->
  existsb App.of_plot (page (snd (run w ss))) = false.
Proof.
  intros E. rewrite run_page_exact, existsb_app, upload_page_no_plot, E.
  destruct (App.clears w ss); reflexivity.
Qed.

(** X15. However a session went, an interaction that presses "Clear All
    Traces" ends it with an empty store, and with a page that shows
    neither chart nor trace count. *)
Theorem session_ending_in_clear
        (ws : list widgets) (ss : session_state) (w : widgets) (df : Pd.DataFrame) :
  uploaded_file w = Some (inr df) -> add_clicked w = false -> clear_clicked w = true ->
  App.all_traces (App.session_after repr ss (ws ++ [w])) = [] /\
  existsb App.of_plot
    (page (snd (App.interact repr (App.session_after repr ss ws) w))) = false.
Proof.
  intros U A C. split.
  - rewrite session_after_app. unfold App.session_after at 1. simpl.
    rewrite interact_store. apply (clear_action_store w _ df U A C).
  - pose proof (clear_action_store w (App.session_after repr ss ws) df U A C) as E.
    unfold App.interact. rewrite run_status_exact.
    destruct (App.clears w (App.session_after repr ss ws)).
    + apply run_page_no_plot. rewrite released_keeps_store, run_store_exact. exact E.
    + apply run_page_no_plot. exact E.
Qed.

(** The script reads the session only through the content of the store. *)
Lemma store_at_clear_ext (w : widgets) (s1 s2 : session_state) :
  App.all_traces s1 = App.all_traces s2 ->
  App.store_at_clear w s1 = App.store_at_clear w s2.
Proof. intros E. unfold App.store_at_clear. rewrite E. reflexivity. Qed.

Lemma run_exact (w : widgets) (ss : session_state) :
  run w ss =
  (if App.clears w ss then inl Py.RerunException else inr tt,
   {| session := {| traces := Some (App.store_after w ss) |};
      page := App.upload_page repr w ss ++
              (if App.clears w ss then []
               else App.plot_section (App.store_after w ss)) |}).
Proof.
  pose proof (run_status_exact w ss) as F.
  pose proof (run_session w ss) as S.
  pose proof (upload_store w ss) as T. rewrite <- S in T.
  pose proof (run_page_exact w ss) as P.
  destruct (run w ss) as [o [[t] p]]. simpl in *. subst. reflexivity.
Qed.

Lemma run_ext (w : widgets) (s1 s2 : session_state) :
  App.all_traces s1 = App.all_traces s2 -> run w s1 = run w s2.
Proof.
  intros E. rewrite !run_exact.
  unfold App.upload_page, App.store_after, App.clears.
  rewrite (store_at_clear_ext w s1 s2 E), E. reflexivity.
Qed.

(** X16. Running the script again with no button pressed changes nothing:
    the second run leaves the same session and draws the same page as the
    first, so a rerun caused by a selection or a text field only redraws. *)
Theorem idle_run_is_idempotent (w : widgets) (ss : session_state) :
  add_clicked w = false -> clear_clicked w = false ->
  App.all_traces (session (snd (run w ss))) = App.all_traces ss /\
  run w (session (snd (run w ss))) = run w ss.
Proof.
  intros A C.
  assert (E : App.all_traces (session (snd (run w ss))) = App.all_traces ss).
  { rewrite run_store_exact.
    unfold App.store_after, App.clears, App.store_at_clear. rewrite A, C.
    destruct (uploaded_file w) as [[e|df]|]; reflexivity. }
  split; [exact E | apply run_ext; exact E].
Qed.


End Runs.

(** ** The properties on the sample inputs *)

Ltac sample_facts :=
  unfold App.add_action, Pd.well_formed; simpl;
  repeat split; auto; repeat constructor; simpl; intuition discriminate.

Lemma trace_record_lengths_agree_witness :
  exists r,
    App.form_trace Sample.df5 Sample.add_value_vs_time = inr r /\
    App.all_traces
      (session (snd (App.run_script Sample.repr_plain Sample.add_value_vs_time
                       Sample.new_session))) = [r] /\
    length (Trace.x r) = length (Trace.y r).
Proof.
  apply (trace_record_lengths_agree Sample.repr_plain Sample.df5); sample_facts.
Defined.

Lemma default_labels_witness :
  exists r,
    App.all_traces
      (session (snd (App.run_script Sample.repr_plain Sample.add_value_vs_time
                       Sample.one_trace))) =
      App.all_traces Sample.one_trace ++ [r] /\
    Trace.x_label r = "time" /\ Trace.y_label r = "value" /\
    Trace.name r = "value vs time".
Proof.
  apply (default_labels Sample.repr_plain Sample.add_value_vs_time
           Sample.one_trace Sample.df5); [sample_facts | reflexivity ..].
Defined.

Lemma trace_holds_whole_columns_witness :
  exists r,
    App.form_trace Sample.df5 Sample.add_value_vs_time = inr r /\
    App.all_traces
      (session (snd (App.run_script Sample.repr_plain Sample.add_value_vs_time
                       Sample.new_session))) = [r] /\
    Trace.x r = [Py.VInt 0; Py.VInt 1; Py.VInt 2; Py.VInt 3; Py.VInt 4] /\
    Trace.y r = [Py.VStr "a"; Py.VStr "b"; Py.VStr "c"; Py.VStr "d"; Py.VStr "e"].
Proof.
  apply (trace_holds_whole_columns Sample.repr_plain Sample.add_value_vs_time
           Sample.new_session Sample.df5
           (Pd.mkSeries "time" Pd.int64
              [Py.VInt 0; Py.VInt 1; Py.VInt 2; Py.VInt 3; Py.VInt 4])
           (Pd.mkSeries "value" Pd.object
              [Py.VStr "a"; Py.VStr "b"; Py.VStr "c"; Py.VStr "d"; Py.VStr "e"]));
    [sample_facts | simpl; auto | reflexivity | simpl; auto | reflexivity].
Defined.

Lemma unknown_column_rejected_witness :
  (exists key,
      App.new_trace Sample.df5 "time" "speed" "speed vs time" "time" "speed" =
      inl (Py.KeyError key) /\
      (key = "time" \/ key = "speed") /\ ~ In key (Pd.columns Sample.df5)) /\
  fst (App.run_script Sample.repr_plain Sample.add_unknown Sample.one_trace) = inr tt /\
  App.all_traces
    (session (snd (App.run_script Sample.repr_plain Sample.add_unknown
                     Sample.one_trace))) = App.all_traces Sample.one_trace /\
  exists key,
    ~ In key (Pd.columns Sample.df5) /\
    In (error ("❌ Error reading file: " ++ Sample.repr_plain key)%string)
       (page (snd (App.run_script Sample.repr_plain Sample.add_unknown
                     Sample.one_trace))).
Proof.
  destruct (unknown_column_rejected Sample.repr_plain Sample.df5
              "time" "speed" "speed vs time" "time" "speed") as [B P].
  - sample_facts.
  - right. simpl. intuition discriminate.
  - split; [exact B|]. apply P; reflexivity.
Defined.

Lemma empty_table_adds_empty_trace_witness :
  exists r,
    App.all_traces
      (session (snd (App.run_script Sample.repr_plain Sample.add_empty
                       Sample.one_trace))) =
      App.all_traces Sample.one_trace ++ [r] /\
    Trace.x r = [] /\ Trace.y r = [] /\
    exists fig,
      In (plotly_chart fig)
         (page (snd (App.run_script Sample.repr_plain Sample.add_empty
                       Sample.one_trace))) /\
      Go.data fig =
        map App.scatter_of (App.all_traces Sample.one_trace) ++ [App.scatter_of r] /\
      Go.x (App.scatter_of r) = [] /\ Go.y (App.scatter_of r) = [].
Proof.
  apply (empty_table_adds_empty_trace Sample.repr_plain Sample.add_empty
           Sample.one_trace Sample.df0); [sample_facts | reflexivity].
Defined.

Lemma axis_titles_of_last_trace_witness :
  exists fig lay,
    In (plotly_chart fig)
       (page (snd (App.run_script Sample.repr_plain Sample.no_upload
                     Sample.two_traces))) /\
    (forall fig',
        In (plotly_chart fig')
           (page (snd (App.run_script Sample.repr_plain Sample.no_upload
                         Sample.two_traces))) -> fig' = fig) /\
    Go.layout fig = Some lay /\
    Go.xaxis_title_text lay = "seconds" /\
    Go.yaxis_title_text lay = "volts".
Proof.
  apply (axis_titles_of_last_trace Sample.repr_plain Sample.no_upload
           Sample.two_traces
           [Trace.mk [Py.VInt 1] [Py.VInt 2] "b vs a" "a" "b"]
           (Trace.mk [Py.VInt 3] [Py.VInt 4] "d vs c" "seconds" "volts")).
  reflexivity.
Defined.

Lemma plot_drawn_iff_store_nonempty_witness :
  fst (App.run_script Sample.repr_plain Sample.no_upload Sample.one_trace) = inr tt /\
  exists fig,
    In (plotly_chart fig)
       (page (snd (App.run_script Sample.repr_plain Sample.no_upload Sample.one_trace))).
Proof.
  apply (plot_drawn_iff_store_nonempty Sample.repr_plain Sample.no_upload
           Sample.one_trace); [reflexivity | discriminate].
Defined.

Lemma parse_failure_reported_witness :
  fst (App.run_script Sample.repr_plain Sample.bad_upload Sample.one_trace) = inr tt /\
  In (error "❌ Error reading file: Error tokenizing data")
     (page (snd (App.run_script Sample.repr_plain Sample.bad_upload Sample.one_trace))) /\
  App.all_traces
    (session (snd (App.run_script Sample.repr_plain Sample.bad_upload Sample.one_trace))) =
  App.all_traces Sample.one_trace.
Proof.
  apply (parse_failure_reported Sample.repr_plain Sample.bad_upload Sample.one_trace
           (Py.ParserError "Error tokenizing data")).
  reflexivity.
Defined.

Lemma adds_accumulate_in_order_witness :
  length (App.all_traces
            (App.session_after Sample.repr_plain Sample.new_session
               [Sample.add_value_vs_time; Sample.add_time_vs_value;
                Sample.add_value_vs_time])) = 3 /\
  Forall2 (fun w r => exists df,
               uploaded_file w = Some (inr df) /\ App.form_trace df w = inr r)
          [Sample.add_value_vs_time; Sample.add_time_vs_value;
           Sample.add_value_vs_time]
          (App.all_traces
             (App.session_after Sample.repr_plain Sample.new_session
                [Sample.add_value_vs_time; Sample.add_time_vs_value;
                 Sample.add_value_vs_time])).
Proof.
  apply (adds_accumulate_in_order Sample.repr_plain Sample.new_session
           [Sample.add_value_vs_time; Sample.add_time_vs_value;
            Sample.add_value_vs_time]).
  - reflexivity.
  - repeat (constructor; [exists Sample.df5; sample_facts|]). constructor.
Defined.

Lemma clear_empties_store_witness :
  (forall wd : world,
      fst (App.clear wd) = inr tt /\ traces (session (snd (App.clear wd))) = Some []) /\
  length (App.all_traces
            (session (snd (App.run_script Sample.repr_plain Sample.press_clear
                             Sample.two_traces)))) = 0 /\
  fst (App.interact Sample.repr_plain Sample.two_traces Sample.press_clear) = inr tt /\
  length (App.all_traces
            (session (snd (App.interact Sample.repr_plain Sample.two_traces
                             Sample.press_clear)))) = 0.
Proof.
  apply (clear_empties_store Sample.repr_plain Sample.press_clear Sample.two_traces
           Sample.df5); reflexivity.
Defined.

(** ** The further properties on the sample inputs *)

Lemma rerun_iff_clear_pressed_witness :
  App.all_traces
    (session (snd (App.run_script Sample.repr_plain Sample.press_clear
                     Sample.two_traces))) = [] /\
  existsb App.of_plot
    (page (snd (App.run_script Sample.repr_plain Sample.press_clear
                  Sample.two_traces))) = false.
Proof.
  destruct (rerun_iff_clear_pressed Sample.repr_plain Sample.press_clear
              Sample.two_traces) as [_ H].
  apply H. reflexivity.
Defined.

Lemma store_grows_without_clear_witness :
  exists rs,
    App.all_traces
      (session (snd (App.run_script Sample.repr_plain Sample.add_value_vs_time
                       Sample.one_trace))) = App.all_traces Sample.one_trace ++ rs /\
    length rs <= 1 /\
    (add_clicked Sample.add_value_vs_time = false -> rs = []).
Proof.
  apply (store_grows_without_clear Sample.repr_plain Sample.add_value_vs_time
           Sample.one_trace).
  reflexivity.
Defined.

Lemma no_frame_no_form_witness :
  fst (App.run_script Sample.repr_plain Sample.bad_upload_pressed Sample.two_traces) =
    inr tt /\
  App.all_traces
    (session (snd (App.run_script Sample.repr_plain Sample.bad_upload_pressed
                     Sample.two_traces))) = App.all_traces Sample.two_traces /\
  existsb App.of_form
    (page (snd (App.run_script Sample.repr_plain Sample.bad_upload_pressed
                  Sample.two_traces))) = false.
Proof.
  apply (no_frame_no_form Sample.repr_plain Sample.bad_upload_pressed Sample.two_traces).
  right. eexists. reflexivity.
Defined.

Lemma plot_reflects_store_witness :
  Go.data (App.figure_of (App.all_traces Sample.two_traces)
             (Trace.mk [Py.VInt 3] [Py.VInt 4] "d vs c" "seconds" "volts")) =
  map App.scatter_of
      (App.all_traces
         (session (snd (App.run_script Sample.repr_plain Sample.no_upload
                          Sample.two_traces)))).
Proof.
  destruct (plot_reflects_store Sample.repr_plain Sample.no_upload Sample.two_traces)
    as [H _].
  apply H. vm_compute. tauto.
Defined.

Lemma every_scatter_balanced_witness :
  Forall App.balanced
    (App.all_traces
       (session (snd (App.run_script Sample.repr_plain Sample.add_time_vs_value
                        (App.session_after Sample.repr_plain Sample.one_trace
                           [Sample.add_value_vs_time; Sample.bad_upload;
                            Sample.add_unknown]))))) /\
  (forall fig,
      In (plotly_chart fig)
         (page (snd (App.run_script Sample.repr_plain Sample.add_time_vs_value
                       (App.session_after Sample.repr_plain Sample.one_trace
                          [Sample.add_value_vs_time; Sample.bad_upload;
                           Sample.add_unknown])))) ->
      Forall (fun sc => length (Go.x sc) = length (Go.y sc)) (Go.data fig)).
Proof.
  apply (every_scatter_balanced Sample.repr_plain
           [Sample.add_value_vs_time; Sample.bad_upload; Sample.add_unknown]
           Sample.one_trace Sample.add_time_vs_value).
  - intros w' df I U. simpl in I.
    destruct I as [<-|[<-|[<-|[<-|[]]]]]; try discriminate U;
      injection U as <-; sample_facts.
  - repeat constructor.
Defined.

Lemma typed_labels_are_kept_witness :
  exists r,
    App.all_traces
      (session (snd (App.run_script Sample.repr_plain Sample.add_with_x_label
                       Sample.new_session))) = [r] /\
    Trace.x_label r = "seconds" /\ Trace.y_label r = "value" /\
    Trace.name r = "value vs time".
Proof.
  destruct (typed_labels_are_kept Sample.repr_plain Sample.add_with_x_label
              Sample.new_session Sample.df5) as (r & T & X & _ & _ & _ & Y & N).
  - sample_facts.
  - exists r. split; [exact T|]. split; [apply X; reflexivity|].
    split; [apply Y; reflexivity | apply N; reflexivity].
Defined.

Lemma builder_succeeds_iff_columns_known_witness :
  ((exists r, App.new_trace Sample.df5 "time" "speed" "n" "a" "b" = inr r) <->
   In "time" (Pd.columns Sample.df5) /\ In "speed" (Pd.columns Sample.df5)) /\
  (~ In "time" (Pd.columns Sample.df5) ->
   App.new_trace Sample.df5 "time" "speed" "n" "a" "b" = inl (Py.KeyError "time")).
Proof.
  apply (builder_succeeds_iff_columns_known Sample.df5 "time" "speed" "n" "a" "b").
  sample_facts.
Defined.


Lemma session_ending_in_clear_witness :
  App.all_traces
    (App.session_after Sample.repr_plain Sample.new_session
       ([Sample.add_value_vs_time; Sample.add_time_vs_value] ++ [Sample.press_clear]))
  = [] /\
  existsb App.of_plot
    (page (snd (App.interact Sample.repr_plain
                  (App.session_after Sample.repr_plain Sample.new_session
                     [Sample.add_value_vs_time; Sample.add_time_vs_value])
                  Sample.press_clear))) = false.
Proof.
  apply (session_ending_in_clear Sample.repr_plain
           [Sample.add_value_vs_time; Sample.add_time_vs_value]
           Sample.new_session Sample.press_clear Sample.df5); reflexivity.
Defined.

Lemma idle_run_is_idempotent_witness :
  App.all_traces
    (session (snd (App.run_script Sample.repr_plain Sample.change_selection
                     Sample.two_traces))) = App.all_traces Sample.two_traces /\
  App.run_script Sample.repr_plain Sample.change_selection
    (session (snd (App.run_script Sample.repr_plain Sample.change_selection
                     Sample.two_traces))) =
  App.run_script Sample.repr_plain Sample.change_selection Sample.two_traces.
Proof.
  apply (idle_run_is_idempotent Sample.repr_plain Sample.change_selection
           Sample.two_traces); reflexivity.
Defined.

